(** * lightning-flash: stage-aware inputs, video predict input, tabular backbones

    A shallow embedding of
      - [flash/core/data/io/input_base.py]  ([InputBase], [Input], [IterableInput]
        and the metaclasses that forbid overriding [__init__]),
      - [flash/video/classification/input.py]
        ([VideoClassificationPathsPredictInput]),
      - [flash/core/integrations/pytorch_tabular/backbones.py]
        ([load_pytorch_tabular] and the backbone registry),
    with the properties of the specification stated and proved about it.

    Modelling conventions.
      - Python values are the inductive [value]; objects of external libraries
        that the code only passes on (tensors, clip samplers, encoded videos)
        are opaque handles [VObject]; an object that is its own iterator (a
        generator, a library dataset) is a [VIterator].
      - A raised exception is the [Raise] branch of [result]; a method that
        mutates [self] is a function [obj_state -> result A * obj_state], so
        the state reached when an exception propagates is still defined.
      - A class is given by its [__mro__]: the list of class bodies attribute
        lookup walks, most derived first.  The linearisation itself is Python's.
      - Hooks ([load_data], [predict_load_sample], ...) are arbitrary: they
        read the whole instance, may raise, and may store attributes of their
        own on [self] ([attrs]).  They do not assign the three attributes owned
        by the base classes ([_running_stage], [data], [data_iter]); Python
        values are immutable here, so a hook that updates a sample in place is
        seen as returning the updated sample.
      - [calls] is instrumentation: the log of hook invocations made through
        [_call_load_data] and [_call_load_sample] (a call-count probe). *)

From Stdlib Require Import ZArith Lia.
From stdpp Require Import base option list strings gmap.

Set Warnings "-register-all".
Open Scope string_scope.
Open Scope Z_scope.

(** ** Python values, exceptions and results *)

Inductive value : Type :=
  | VNone
  | VBool (b : bool)
  | VInt (z : Z)
  | VStr (s : string)
  | VList (l : list value)
  | VFloat (num : Z) (den : positive)      (* the finite float num/den *)
  | VDict (d : list (string * value))
  | VObject (id : nat)
  (* an object that is its own iterator: the items of a pass, how many were
     consumed, and whether its [__iter__] rewinds it *)
  | VIterator (items : list value) (pos : nat) (rewinds : bool).

Inductive exn : Type :=
  | IndexError
  | KeyError (key : value)
  | TypeError
  | AttributeError (name : string)
  | StopIteration
  | RuntimeError (msg : string)
  | MisconfigurationException (msg : string)
  | OSError (msg : string).

Inductive result (A : Type) : Type :=
  | Ok (a : A)
  | Raise (e : exn).
Arguments Ok {A} a.
Arguments Raise {A} e.

Definition kwargs := list (string * value).

(** [x is None] *)
Definition is_None (v : value) : bool :=
  match v with VNone => true | _ => false end.

(** Truth value testing, as [if x:] does it. *)
Definition truthy (v : value) : bool :=
  match v with
  | VNone => false
  | VBool b => b
  | VInt z => negb (z =? 0)
  | VFloat n _ => negb (n =? 0)
  | VStr s => negb (String.eqb s "")
  | VList l => match l with [] => false | _ => true end
  | VDict d => match d with [] => false | _ => true end
  | VObject _ => true
  | VIterator _ _ _ => true
  end.

(** [l[i]] on a list: a negative index counts from the end. *)
Definition list_getitem (l : list value) (i : Z) : result value :=
  let n := Z.of_nat (length l) in
  let j := if i <? 0 then i + n else i in
  if (j <? 0) || (n <=? j) then Raise IndexError
  else match l !! Z.to_nat j with
       | Some v => Ok v
       | None => Raise IndexError
       end.

Fixpoint chars (s : string) : list value :=
  match s with
  | EmptyString => []
  | String c s' => VStr (String c EmptyString) :: chars s'
  end.

Fixpoint dict_get (d : list (string * value)) (k : string) : option value :=
  match d with
  | [] => None
  | (k', v) :: d' => if String.eqb k' k then Some v else dict_get d' k
  end.

(** [d[k] = v]: an existing key keeps its place. *)
Fixpoint dict_set (d : list (string * value)) (k : string) (v : value)
    : list (string * value) :=
  match d with
  | [] => [(k, v)]
  | (k', v') :: d' =>
      if String.eqb k' k then (k', v) :: d' else (k', v') :: dict_set d' k v
  end.

(** [v[i]] with an integer subscript. *)
Definition py_getitem (v : value) (i : Z) : result value :=
  match v with
  | VList l => list_getitem l i
  | VStr s => list_getitem (chars s) i
  | VDict _ => Raise (KeyError (VInt i))
  | _ => Raise TypeError
  end.

(** [v[k]] with a string subscript. *)
Definition py_getitem_str (v : value) (k : string) : result value :=
  match v with
  | VDict d => match dict_get d k with
               | Some x => Ok x
               | None => Raise (KeyError (VStr k))
               end
  | _ => Raise TypeError
  end.

(** [len(v)] *)
Definition py_len (v : value) : result Z :=
  match v with
  | VList l => Ok (Z.of_nat (length l))
  | VStr s => Ok (Z.of_nat (String.length s))
  | VDict d => Ok (Z.of_nat (length d))
  | _ => Raise TypeError
  end.

(** An iterator over a sequence: the items and the position of the next one. *)
Record iterator : Type := Iterator { it_items : list value; it_pos : nat }.

(** [iter(v)]: a fresh iterator over a sequence; the object itself, in the
    state it is in, when it is its own iterator. *)
Definition py_iter (v : value) : result iterator :=
  match v with
  | VList l => Ok (Iterator l 0)
  | VStr s => Ok (Iterator (chars s) 0)
  | VDict d => Ok (Iterator (map (fun kv => VStr (fst kv)) d) 0)
  | VIterator items pos rewinds => Ok (Iterator items (if rewinds then 0%nat else pos))
  | _ => Raise TypeError
  end.

(** [next(it)]: the iterator is advanced in place. *)
Definition py_next (it : iterator) : result value * iterator :=
  match it_items it !! it_pos it with
  | Some v => (Ok v, Iterator (it_items it) (S (it_pos it)))
  | None => (Raise StopIteration, it)
  end.

(** ** Running stages *)

(** Modelled from the spec: [flash.core.utilities.stages.RunningStage] is not
    among the sources; the enumeration is the one of the data model
    ("training, validating, testing, predicting, sanity-checking, tuning"). *)
Inductive RunningStage : Type :=
  | TRAINING | VALIDATING | TESTING | PREDICTING | SANITY_CHECKING | TUNING.

(** ** Instances and classes *)

Inductive call : Type :=
  | CallLoadData (name : string) (args : list value) (kw : kwargs)
  | CallLoadSample (name : string) (sample : value).

Record obj_state : Type := ObjState {
  _running_stage : RunningStage;
  data : value;
  data_iter : option iterator;      (* [None]: the attribute is not set *)
  attrs : gmap string value;        (* attributes stored by hooks *)
  calls : list call                 (* instrumentation, oldest first *)
}.

Definition set_data (self : obj_state) (d : value) : obj_state :=
  ObjState (_running_stage self) d (data_iter self) (attrs self) (calls self).
Definition set_data_iter (self : obj_state) (it : option iterator) : obj_state :=
  ObjState (_running_stage self) (data self) it (attrs self) (calls self).
Definition set_attrs (self : obj_state) (a : gmap string value) : obj_state :=
  ObjState (_running_stage self) (data self) (data_iter self) a (calls self).
Definition log_call (self : obj_state) (c : call) : obj_state :=
  ObjState (_running_stage self) (data self) (data_iter self) (attrs self)
           (calls self ++ [c]).

(** A method in a class body: called with [self], positional and keyword
    arguments, it returns or raises, and leaves [self]'s own attributes. *)
Definition function : Type :=
  obj_state -> list value -> kwargs -> result value * gmap string value.

Definition code_id := nat.

(** A class body.  [__init__] is kept apart from the other members because
    only the identity of its code object is ever inspected. *)
Record class_body : Type := ClassBody {
  cb_name : string;
  cb_init : option code_id;
  cb_members : gmap string function
}.

Record pyclass : Type := PyClass {
  cls_name : string;
  cls_mro : list class_body
}.

(** [getattr(self, name)] for a method name: the first class of the MRO that
    defines it. *)
Fixpoint lookup_member (mro : list class_body) (name : string) : option function :=
  match mro with
  | [] => None
  | cb :: rest =>
      match cb_members cb !! name with
      | Some f => Some f
      | None => lookup_member rest name
      end
  end.

Definition getattr (cls : pyclass) (name : string) : option function :=
  lookup_member (cls_mro cls) name.

(** [getattr(cls, "__init__")]: [None] stands for [object.__init__]. *)
Fixpoint lookup_init (mro : list class_body) : option code_id :=
  match mro with
  | [] => None
  | cb :: rest =>
      match cb_init cb with
      | Some c => Some c
      | None => lookup_init rest
      end
  end.

(** ** [flash/core/data/io/input_base.py] *)

(** Modelled from the spec: [DataPipeline._resolve_function_hierarchy] is not
    among the sources.  The stage-to-prefix table is the one of the contract
    of [resolve]. *)
Definition stagePrefix (stage : RunningStage) : string :=
  match stage with
  | TRAINING => "train"
  | VALIDATING => "val"
  | TESTING => "test"
  | PREDICTING => "predict"
  | SANITY_CHECKING => "sanity_check"
  | TUNING => "tune"
  end.

Definition stage_hook_name (stage : RunningStage) (function_name : string) : string :=
  String.append (stagePrefix stage) (String.append "_" function_name).

(** Modelled from the spec: [DataPipeline._resolve_function_hierarchy], not
    among the sources: "looks for a member named
    [f"{stagePrefix(stage)}_{hookBaseName}"] on the concrete dataset type (and
    its ancestors, most-derived first); if absent, falls back to
    [hookBaseName]".  It returns the name to look up. *)
Definition _resolve_function_hierarchy
    (function_name : string) (cls : pyclass) (stage : RunningStage) : string :=
  match getattr cls (stage_hook_name stage function_name) with
  | Some _ => stage_hook_name stage function_name
  | None => function_name
  end.

(** Modelled from the spec: the [running_stage] property of [Properties]
    (not among the sources) reads the stage the instance was constructed
    with. *)
Definition running_stage (self : obj_state) : RunningStage := _running_stage self.

(** Calling a bound method: the call is logged, the attributes the method
    leaves on [self] are stored. *)
Definition invoke (c : call) (f : function) (self : obj_state)
    (args : list value) (kw : kwargs) : result value * obj_state :=
  let '(r, a) := f self args kw in
  (r, log_call (set_attrs self a) c).

Definition _call_load_data (cls : pyclass) (self : obj_state)
    (args : list value) (kw : kwargs) : result value * obj_state :=
  let name := _resolve_function_hierarchy "load_data" cls (running_stage self) in
  match getattr cls name with
  | None => (Raise (AttributeError name), self)
  | Some load_data => invoke (CallLoadData name args kw) load_data self args kw
  end.

Definition _call_load_sample (cls : pyclass) (self : obj_state)
    (sample : value) : result value * obj_state :=
  let name := _resolve_function_hierarchy "load_sample" cls (running_stage self) in
  match getattr cls name with
  | None => (Raise (AttributeError name), self)
  | Some load_sample => invoke (CallLoadSample name sample) load_sample self [sample] []
  end.

(** [InputBase.__init__].  [super().__init__()], the two assignments and the
    read of [args[0]] come first; the instance starts with no attribute of its
    own and no [data_iter]. *)
Definition InputBase___init__ (cls : pyclass) (running_stage : RunningStage)
    (args : list value) (kw : kwargs) : result unit * obj_state :=
  let self := ObjState running_stage (VList []) None ∅ [] in
  match args with
  | [] => (Raise IndexError, self)
  | a0 :: _ =>
      if is_None a0 then (Ok tt, self)
      else
        match _call_load_data cls self args kw with
        | (Ok d, self') => (Ok tt, set_data self' d)
        | (Raise e, self') => (Raise e, self')
        end
  end.

(** The static method [InputBase.load_data]: [return args[0]]. *)
Definition InputBase_load_data : function :=
  fun self args kw =>
    match args with
    | [] => (Raise IndexError, attrs self)
    | a0 :: _ => (Ok a0, attrs self)
    end.

(** The static method [InputBase.load_sample]: [return sample]. *)
Definition InputBase_load_sample : function :=
  fun self args kw =>
    match args, kw with
    | [sample], [] => (Ok sample, attrs self)
    | [], [("sample", sample)] => (Ok sample, attrs self)
    | _, _ => (Raise TypeError, attrs self)
    end.

Definition InputBase___init___code : code_id := 0%nat.

Definition InputBase_body : class_body :=
  ClassBody "InputBase" (Some InputBase___init___code)
    (<["load_data" := InputBase_load_data]>
       (<["load_sample" := InputBase_load_sample]> ∅)).

Definition _check_init_message : string :=
  String.append
    "Classes which extend `Input` or `IterableInput` should not override `__init__`. All instantiation "
    "logic should take place within the `load_data` hook.".

(** [is_overridden("__init__", input_cls, InputBase)] of pytorch_lightning:
    the code object of the [__init__] found on [input_cls] differs from the
    one of [InputBase.__init__].  [object.__init__] has no code object. *)
Definition is_overridden___init__ (input_cls : pyclass) : result bool :=
  match lookup_init (cls_mro input_cls) with
  | None => Raise (AttributeError "__code__")
  | Some c => Ok (negb (Nat.eqb c InputBase___init___code))
  end.

Definition _check_init (input_cls : pyclass) : result unit :=
  match is_overridden___init__ input_cls with
  | Raise e => Raise e
  | Ok true => Raise (RuntimeError _check_init_message)
  | Ok false => Ok tt
  end.

(** [type.__new__(mcs, name, bases, dct)]: [bases] is given linearised, as
    the tail of the new class's [__mro__]. *)
Definition type___new__ (name : string) (bases : list class_body)
    (init : option code_id) (members : gmap string function) : pyclass :=
  PyClass name (ClassBody name init members :: bases).

Definition _InputMeta___new__ (name : string) (bases : list class_body)
    (init : option code_id) (members : gmap string function) : result pyclass :=
  let input_cls := type___new__ name bases init members in
  match _check_init input_cls with
  | Raise e => Raise e
  | Ok _ => Ok input_cls
  end.

Definition _IterableInputMeta___new__ (name : string) (bases : list class_body)
    (init : option code_id) (members : gmap string function) : result pyclass :=
  let input_cls := type___new__ name bases init members in
  match _check_init input_cls with
  | Raise e => Raise e
  | Ok _ => Ok input_cls
  end.

(** [class Input(InputBase[Sequence], Dataset, metaclass=_InputMeta)] *)
Definition Input : pyclass := type___new__ "Input" [InputBase_body] None ∅.

Definition Input___getitem__ (cls : pyclass) (self : obj_state) (index : Z)
    : result value * obj_state :=
  match py_getitem (data self) index with
  | Raise e => (Raise e, self)
  | Ok raw => _call_load_sample cls self raw
  end.

Definition Input___len__ (self : obj_state) : result Z := py_len (data self).

(** [class IterableInput(InputBase[Iterable], IterableDataset,
    metaclass=_IterableInputMeta)] *)
Definition IterableInput : pyclass :=
  type___new__ "IterableInput" [InputBase_body] None ∅.

(** Objects live in a heap; [self] is a reference, and [__iter__] returns it. *)
Abbreviation loc := nat (only parsing).

(** [data_iter] is the object [iter(self.data)] returned, in state [it].
    When [data] is its own iterator that object is [data]: the two attributes
    name one object, and what happens to one happens to the other. *)
Definition with_data_iter (self : obj_state) (it : iterator) : obj_state :=
  set_data_iter
    (match data self with
     | VIterator _ _ rewinds =>
         set_data self (VIterator (it_items it) (it_pos it) rewinds)
     | _ => self
     end)
    (Some it).

Definition IterableInput___iter__ (self_ref : loc) (self : obj_state)
    : result loc * obj_state :=
  match py_iter (data self) with
  | Raise e => (Raise e, self)
  | Ok it => (Ok self_ref, with_data_iter self it)
  end.

Definition IterableInput___next__ (cls : pyclass) (self : obj_state)
    : result value * obj_state :=
  match data_iter self with
  | None => (Raise (AttributeError "data_iter"), self)
  | Some it =>
      match py_next it with
      | (Raise e, it') => (Raise e, with_data_iter self it')
      | (Ok raw, it') => _call_load_sample cls (with_data_iter self it') raw
      end
  end.

(** A method call through a reference. *)
Abbreviation heap := (gmap nat (pyclass * obj_state)) (only parsing).

Definition on_object {A : Type} (ref : loc)
    (method : pyclass -> obj_state -> result A * obj_state) (h : heap)
    : result A * heap :=
  match h !! ref with
  | None => (Raise (RuntimeError "dangling reference"), h)
  | Some (cls, self) =>
      let '(r, self') := method cls self in
      (r, <[ref := (cls, self')]> h)
  end.

(** [iter(obj)] and [next(handle)] on a streaming dataset. *)
Definition beginIteration (obj : loc) : heap -> result loc * heap :=
  on_object obj (fun _ self => IterableInput___iter__ obj self).

Definition next (handle : loc) : heap -> result value * heap :=
  on_object handle IterableInput___next__.


(** The public operations of the two dataset variants, as a caller issues
    them on one instance. *)
Inductive operation : Type :=
  | OpLen
  | OpGetItem (index : Z)
  | OpIter (self_ref : loc)
  | OpNext.

Definition run_operation (cls : pyclass) (op : operation) (self : obj_state)
    : obj_state :=
  match op with
  | OpLen => self
  | OpGetItem index => snd (Input___getitem__ cls self index)
  | OpIter self_ref => snd (IterableInput___iter__ self_ref self)
  | OpNext => snd (IterableInput___next__ cls self)
  end.

Definition run_operations (cls : pyclass) (ops : list operation)
    (self : obj_state) : obj_state :=
  fold_left (fun s op => run_operation cls op s) ops self.

(** ** [flash/video/classification/input.py] *)

Definition bind {A B : Type} (r : result A) (k : A -> result B) : result B :=
  match r with
  | Ok a => k a
  | Raise e => Raise e
  end.

Notation "x <- r ;; k" := (bind r (fun x => k))
  (at level 100, r at next level, right associativity, only parsing).

(** Binding of the arguments of a call to the parameters of a [def] that
    ends in [**_]: positional arguments first, then keywords, then defaults;
    keywords that name no parameter are absorbed. *)
Fixpoint bind_args (params : list (string * option value))
    (args : list value) (kw : kwargs) : result (list (string * value)) :=
  match params, args with
  | [], [] => Ok []
  | [], _ :: _ => Raise TypeError
  | (p, _) :: ps, a :: args' =>
      match dict_get kw p with
      | Some _ => Raise TypeError
      | None => bound <- bind_args ps args' kw ;; Ok ((p, a) :: bound)
      end
  | (p, dflt) :: ps, [] =>
      match dict_get kw p, dflt with
      | Some v, _ => bound <- bind_args ps [] kw ;; Ok ((p, v) :: bound)
      | None, Some v => bound <- bind_args ps [] kw ;; Ok ((p, v) :: bound)
      | None, None => Raise TypeError
      end
  end.

(** [self.name] for an attribute stored by a hook. *)
Definition getattr_value (self : obj_state) (name : string) : result value :=
  match attrs self !! name with
  | Some v => Ok v
  | None => Raise (AttributeError name)
  end.

(** A [pytorchvideo] encoded video. *)
Record EncodedVideo : Type := {
  video_duration : value;
  video_name : value;
  video_get_clip : value -> value -> result value
}.

(** What a clip sampler returns. *)
Record ClipInfo : Type := {
  clip_start : value;
  clip_end : value;
  clip_index : value;
  aug_index : value;
  is_last_clip : value
}.

Section VideoClassification.

(** What the module imports and does not define. *)
Variable list_valid_files : value -> list string -> result value.
Variable make_clip_sampler : value -> value -> kwargs -> result value.
Variable EncodedVideo_from_path : value -> value -> value -> result EncodedVideo.
Variable call_clip_sampler : value -> value -> value -> value -> result ClipInfo.
Variable sampler__clip_duration : value -> result value.
Variable py_str : value -> string.
Variable DataKeys_METADATA : string.

Definition _make_clip_sampler (clip_sampler clip_duration clip_sampler_kwargs : value)
    : result value :=
  kw <- (match clip_sampler_kwargs with
         | VNone => Ok []
         | VDict d => Ok d
         | _ => Raise TypeError
         end) ;;
  make_clip_sampler clip_sampler clip_duration kw.

Definition predict_load_data_params : list (string * option value) :=
  [("paths", None);
   ("clip_sampler", Some (VStr "random"));
   ("clip_duration", Some (VInt 2));
   ("clip_sampler_kwargs", Some VNone);
   ("decode_audio", Some (VBool false));
   ("decoder", Some (VStr "pyav"))].

Definition arg (bound : list (string * value)) (p : string) : value :=
  default VNone (dict_get bound p).

(** [VideoClassificationPathsPredictInput.predict_load_data] *)
Definition predict_load_data : function :=
  fun self args kw =>
    match bind_args predict_load_data_params args kw with
    | Raise e => (Raise e, attrs self)
    | Ok b =>
        match list_valid_files (arg b "paths") ["mp4"; "avi"] with
        | Raise e => (Raise e, attrs self)
        | Ok paths =>
            match _make_clip_sampler (arg b "clip_sampler") (arg b "clip_duration")
                                     (arg b "clip_sampler_kwargs") with
            | Raise e => (Raise e, attrs self)
            | Ok sampler =>
                (Ok paths,
                 <["_decoder" := arg b "decoder"]>
                   (<["_decode_audio" := arg b "decode_audio"]>
                      (<["_clip_sampler" := sampler]> (attrs self))))
            end
        end
    end.

(** [loaded_clip is None or loaded_clip["video"] is None or
    (loaded_clip["audio"] is None and self._decode_audio)], as the [if]
    tests it. *)
Definition clip_is_null (self : obj_state) (loaded_clip : value) : result bool :=
  if is_None loaded_clip then Ok true
  else
    v <- py_getitem_str loaded_clip "video" ;;
    if is_None v then Ok true
    else
      a <- py_getitem_str loaded_clip "audio" ;;
      if is_None a then
        decode_audio <- getattr_value self "_decode_audio" ;;
        Ok (truthy decode_audio)
      else Ok false.

Definition too_short_message (duration clip_duration : value) : string :=
  String.append "The provided video is too short "
    (String.append (py_str duration)
       (String.append " to be clipped at " (py_str clip_duration))).

Definition predict_load_sample_body (self : obj_state) (sample : value)
    : result value :=
  decode_audio <- getattr_value self "_decode_audio" ;;
  decoder <- getattr_value self "_decoder" ;;
  video <- EncodedVideo_from_path sample decode_audio decoder ;;
  sampler <- getattr_value self "_clip_sampler" ;;
  info <- call_clip_sampler sampler (VFloat 0 1) (video_duration video) VNone ;;
  loaded_clip <- video_get_clip video (clip_start info) (clip_end info) ;;
  null <- clip_is_null self loaded_clip ;;
  if null then
    sampler' <- getattr_value self "_clip_sampler" ;;
    clip_duration <- sampler__clip_duration sampler' ;;
    Raise (MisconfigurationException
             (too_short_message (video_duration video) clip_duration))
  else
    frames <- py_getitem_str loaded_clip "video" ;;
    audio_samples <- py_getitem_str loaded_clip "audio" ;;
    let d := [("video", frames);
              ("video_name", video_name video);
              ("video_index", VInt 0);
              ("clip_index", clip_index info);
              ("aug_index", aug_index info)] in
    let d := if is_None audio_samples then d
             else dict_set d "audio" audio_samples in
    Ok (VDict (dict_set d DataKeys_METADATA (VDict [("filepath", sample)]))).

(** [VideoClassificationPathsPredictInput.predict_load_sample] *)
Definition predict_load_sample : function :=
  fun self args kw =>
    match args, kw with
    | [sample], [] => (predict_load_sample_body self sample, attrs self)
    | [], [("sample", sample)] => (predict_load_sample_body self sample, attrs self)
    | _, _ => (Raise TypeError, attrs self)
    end.

Definition VideoClassificationPathsPredictInput_members : gmap string function :=
  <["predict_load_data" := predict_load_data]>
    (<["predict_load_sample" := predict_load_sample]> ∅).

(** [class VideoClassificationPathsPredictInput(Input)] *)
Definition VideoClassificationPathsPredictInput : pyclass :=
  type___new__ "VideoClassificationPathsPredictInput" (cls_mro Input) None
    VideoClassificationPathsPredictInput_members.

End VideoClassification.

(** ** [flash/core/integrations/pytorch_tabular/backbones.py] *)

Module PytorchTabular.

(** The configuration classes of [pytorch_tabular.models]. *)
Inductive ModelConfigClass : Type :=
  | TabNetModelConfig
  | TabTransformerConfig
  | FTTransformerConfig
  | AutoIntConfig
  | NodeConfig
  | CategoryEmbeddingModelConfig.

(** An instance of a configuration class: its class and the arguments of
    [model_config(task=..., embedding_dims=...)]. *)
Record ModelConfig : Type := {
  config_class : ModelConfigClass;
  task : value;
  embedding_dims : value
}.

Section Library.

(** What [omegaconf] and [pytorch_tabular] do is theirs: every call into
    them may raise.  [DictConfig] and [OptimizerConfig] are their objects;
    a constructor that returns has built an instance of its class. *)
Variable DictConfig : Type.
Variable OptimizerConfig : Type.
Variable ModelConfig___init__ : ModelConfigClass -> value -> value -> result unit.
Variable OmegaConf_create : gmap string value -> result DictConfig.
Variable OptimizerConfig___init__ : result OptimizerConfig.
Variable OmegaConf_merge : DictConfig -> ModelConfig -> OptimizerConfig -> result DictConfig.
Variable TabNetModel___init__ : DictConfig -> result unit.

(** The model classes of [pytorch_tabular.models]: an instance, with the
    configuration it was constructed from. *)
Inductive Model : Type :=
  | TabNetModel (config : DictConfig)
  | TabTransformerModel (config : DictConfig)
  | FTTransformerModel (config : DictConfig)
  | AutoIntModel (config : DictConfig)
  | NODEModel (config : DictConfig)
  | CategoryEmbeddingModel (config : DictConfig).

Definition is_TabNetModel (m : Model) : bool :=
  match m with TabNetModel _ => true | _ => false end.

Definition load_pytorch_tabular (model_config : ModelConfigClass)
    (task_type : value) (parameters : gmap string value) (kw : kwargs)
    : result Model :=
  match parameters !! "embedding_dims" with
  | None => Raise (KeyError (VStr "embedding_dims"))
  | Some dims =>
      _ <- ModelConfig___init__ model_config task_type dims ;;
      let model_config :=
        {| config_class := model_config; task := task_type; embedding_dims := dims |} in
      created <- OmegaConf_create parameters ;;
      optimizer_config <- OptimizerConfig___init__ ;;
      config <- OmegaConf_merge created model_config optimizer_config ;;
      _ <- TabNetModel___init__ config ;;
      let model := TabNetModel config in
      Ok model
  end.

(** Modelled from the spec: [FlashRegistry] is not among the sources; it is
    a "model-backbone registry keyed by string name, each returning a model
    object given configuration parameters".  An entry keeps the registered
    function with its metadata; registering appends an entry, and a name is
    looked up from the first entry on. *)
Record Entry : Type := {
  fn : value -> gmap string value -> kwargs -> result Model;
  entry_name : string;
  providers : string;
  adapter : string
}.

Definition FlashRegistry := list Entry.

Definition register (registry : FlashRegistry) (e : Entry) : FlashRegistry :=
  (registry ++ [e])%list.

Fixpoint get (registry : FlashRegistry) (key : string) : option Entry :=
  match registry with
  | [] => None
  | e :: rest => if String.eqb (entry_name e) key then Some e else get rest key
  end.

Definition backbone_config_classes : list ModelConfigClass :=
  [TabNetModelConfig; TabTransformerConfig; FTTransformerConfig; AutoIntConfig;
   NodeConfig; CategoryEmbeddingModelConfig].

Definition backbone_names : list string :=
  ["tabnet"; "tabtransformer"; "fttransformer"; "autoint"; "node";
   "category_embedding"].

(** The registry after the module body has run; nothing is registered when
    [pytorch_tabular] is not installed. *)
Definition PYTORCH_TABULAR_BACKBONES (_PYTORCHTABULAR_AVAILABLE : bool)
    : FlashRegistry :=
  if _PYTORCHTABULAR_AVAILABLE then
    fold_left
      (fun registry '(model_config, name) =>
         register registry
           {| fn := load_pytorch_tabular model_config;
              entry_name := name;
              providers := "_PYTORCH_TABULAR";
              adapter := "PytorchTabularAdapter" |})
      (zip backbone_config_classes backbone_names)
      []
  else [].

End Library.

Arguments TabNetModel {DictConfig} config.
Arguments is_TabNetModel {DictConfig} m.
Arguments fn {DictConfig} e.
Arguments entry_name {DictConfig} e.
Arguments get {DictConfig} registry key.

End PytorchTabular.

(** ** Vocabulary of the statements *)

(** The class derives from [InputBase]. *)
Definition extends_InputBase (cls : pyclass) : Prop :=
  In InputBase_body (cls_mro cls).

(** No class of [classes] defines a member [name]. *)
Definition defined_nowhere (name : string) (classes : list class_body) : Prop :=
  Forall (fun c => cb_members c !! name = None) classes.

(** The call-count probe: how many times a [load_data] hook was invoked. *)
Fixpoint load_data_calls (log : list call) : nat :=
  match log with
  | [] => O
  | CallLoadData _ _ _ :: log' => S (load_data_calls log')
  | CallLoadSample _ _ :: log' => load_data_calls log'
  end.

(** [n] successive calls of [__next__] on one instance. *)
Fixpoint nexts (cls : pyclass) (n : nat) (self : obj_state)
    : list (result value) * obj_state :=
  match n with
  | O => ([], self)
  | S n' =>
      let '(r, self1) := IterableInput___next__ cls self in
      let '(rs, self2) := nexts cls n' self1 in
      (r :: rs, self2)
  end.

(** The cursor moved one descriptor forward. *)
Definition advance (self : obj_state) : obj_state :=
  match data_iter self with
  | Some it => with_data_iter self (Iterator (it_items it) (S (it_pos it)))
  | None => self
  end.


(** What a pass over [raw] is expected to produce: the resolved
    [load_sample] hook applied to each descriptor in order, the cursor moving
    past a descriptor before the hook sees it. *)
Fixpoint load_samples (cls : pyclass) (raw : list value) (self : obj_state)
    : list (result value) * obj_state :=
  match raw with
  | [] => ([], self)
  | x :: raw' =>
      let '(r, self1) := _call_load_sample cls (advance self) x in
      let '(rs, self2) := load_samples cls raw' self1 in
      (r :: rs, self2)
  end.


(** A decoded clip as [pytorchvideo] returns it: [None], or a dictionary with
    the keys ["video"] and ["audio"]. *)
Definition clip_value (clip : option (value * value)) : value :=
  match clip with
  | None => VNone
  | Some (video, audio) => VDict [("video", video); ("audio", audio)]
  end.

(** The decoded clip is null: the clip is missing, its video is missing, or
    audio decoding was requested and its audio is missing. *)
Definition decoded_clip_is_null (clip : option (value * value))
    (decode_audio : value) : bool :=
  match clip with
  | None => true
  | Some (video, audio) => is_None video || (is_None audio && truthy decode_audio)
  end.

(** ** A concrete environment for the video input

    Two files; every video is one second long and too short for the sampler,
    which asks for clips of two seconds, unless it is ["long.mp4"]. *)
Module Fixture.

Definition list_valid_files (paths : value) (_ : list string) : result value :=
  Ok paths.

Definition make_clip_sampler (_ clip_duration : value) (_ : kwargs) : result value :=
  Ok (VObject 7).

Definition frames : value := VObject 1.

Definition EncodedVideo_from_path (path _ _ : value) : result EncodedVideo :=
  match path with
  | VStr "long.mp4" =>
      Ok {| video_duration := VInt 5; video_name := path;
            video_get_clip := fun _ _ =>
              Ok (VDict [("video", frames); ("audio", VNone)]) |}
  | VStr _ =>
      Ok {| video_duration := VInt 1; video_name := path;
            video_get_clip := fun _ _ => Ok VNone |}
  | _ => Raise TypeError
  end.

Definition call_clip_sampler (_ _ _ _ : value) : result ClipInfo :=
  Ok {| clip_start := VInt 0; clip_end := VInt 2; clip_index := VInt 0;
        aug_index := VInt 0; is_last_clip := VBool true |}.

Definition sampler__clip_duration (_ : value) : result value := Ok (VInt 2).

Definition py_str (v : value) : string :=
  match v with
  | VInt 1 => "1"
  | VInt 2 => "2"
  | VInt 5 => "5"
  | VStr s => s
  | _ => "?"
  end.

Definition PredictInput : pyclass :=
  VideoClassificationPathsPredictInput list_valid_files make_clip_sampler
    EncodedVideo_from_path call_clip_sampler sampler__clip_duration py_str
    "metadata".

Definition body : obj_state -> value -> result value :=
  predict_load_sample_body EncodedVideo_from_path call_clip_sampler
    sampler__clip_duration py_str "metadata".

Definition paths : value := VList [VStr "a.mp4"; VStr "b.mp4"].

(** [PredictInput(RunningStage.PREDICTING, ["a.mp4", "b.mp4"])] *)
Definition predict_instance : obj_state :=
  snd (InputBase___init__ PredictInput PREDICTING [paths] []).


End Fixture.

(** ** More of [flash/video/classification/input.py] *)

(** Binding for a [def] without [**kwargs]: a keyword that names no
    parameter is an error. *)
Definition bind_args_strict (params : list (string * option value))
    (args : list value) (kw : kwargs) : result (list (string * value)) :=
  if forallb (fun kv => existsb (String.eqb (fst kv)) (map fst params)) kw
  then bind_args params args kw
  else Raise TypeError.

(** [v[k] = x] with a string subscript. *)
Definition py_setitem_str (v : value) (k : string) (x : value) : result value :=
  match v with
  | VDict d => Ok (VDict (dict_set d k x))
  | _ => Raise TypeError
  end.

Module VideoClassificationInput.
Section Env.

(** [ClassificationInputMixin.format_target], which the module imports. *)
Variable format_target : obj_state -> value -> result value.

(** [VideoClassificationInput.load_sample] *)
Definition load_sample_body (self : obj_state) (sample : value) : result value :=
  label <- py_getitem_str sample "label" ;;
  target <- format_target self label ;;
  py_setitem_str sample "label" target.

Definition load_sample : function :=
  fun self args kw =>
    match args, kw with
    | [sample], [] => (load_sample_body self sample, attrs self)
    | [], [("sample", sample)] => (load_sample_body self sample, attrs self)
    | _, _ => (Raise TypeError, attrs self)
    end.

End Env.
End VideoClassificationInput.

Module VideoClassificationDataFramePredictInput.
Section Env.

Variable list_valid_files : value -> list string -> result value.
Variable make_clip_sampler : value -> value -> kwargs -> result value.
(** [flash.core.data.utilities.data_frame.resolve_files] *)
Variable resolve_files : value -> value -> value -> value -> result value.
(** [torch.utils.data.RandomSampler], the default of [video_sampler] *)
Variable RandomSampler : value.

Definition predict_load_data_params : list (string * option value) :=
  [("data_frame", None);
   ("input_key", None);
   ("root", Some VNone);
   ("resolver", Some VNone);
   ("clip_sampler", Some (VStr "random"));
   ("clip_duration", Some (VInt 2));
   ("clip_sampler_kwargs", Some VNone);
   ("video_sampler", Some RandomSampler);
   ("decode_audio", Some (VBool false));
   ("decoder", Some (VStr "pyav"))].

(** [VideoClassificationDataFramePredictInput.predict_load_data] *)
Definition predict_load_data : function :=
  fun self args kw =>
    match bind_args_strict predict_load_data_params args kw with
    | Raise e => (Raise e, attrs self)
    | Ok b =>
        match resolve_files (arg b "data_frame") (arg b "input_key")
                            (arg b "root") (arg b "resolver") with
        | Raise e => (Raise e, attrs self)
        | Ok files =>
            predict_load_data list_valid_files make_clip_sampler self
              [files]
              [("clip_sampler", arg b "clip_sampler");
               ("clip_duration", arg b "clip_duration");
               ("clip_sampler_kwargs", arg b "clip_sampler_kwargs");
               ("video_sampler", arg b "video_sampler");
               ("decode_audio", arg b "decode_audio");
               ("decoder", arg b "decoder")]
        end
    end.

End Env.
End VideoClassificationDataFramePredictInput.

Module VideoClassificationCSVPredictInput.
Section Env.

Variable list_valid_files : value -> list string -> result value.
Variable make_clip_sampler : value -> value -> kwargs -> result value.
Variable resolve_files : value -> value -> value -> value -> result value.
Variable RandomSampler : value.
(** [flash.core.data.utilities.data_frame.read_csv] and [os.path.dirname] *)
Variable read_csv : value -> result value.
Variable os_path_dirname : value -> result value.

Definition predict_load_data_params : list (string * option value) :=
  [("csv_file", None);
   ("input_key", None);
   ("root", Some VNone);
   ("resolver", Some VNone);
   ("clip_sampler", Some (VStr "random"));
   ("clip_duration", Some (VInt 2));
   ("clip_sampler_kwargs", Some VNone);
   ("video_sampler", Some RandomSampler);
   ("decode_audio", Some (VBool false));
   ("decoder", Some (VStr "pyav"))].

(** [VideoClassificationCSVPredictInput.predict_load_data] *)
Definition predict_load_data : function :=
  fun self args kw =>
    match bind_args_strict predict_load_data_params args kw with
    | Raise e => (Raise e, attrs self)
    | Ok b =>
        match read_csv (arg b "csv_file") with
        | Raise e => (Raise e, attrs self)
        | Ok data_frame =>
            match (if is_None (arg b "root")
                   then os_path_dirname (arg b "csv_file")
                   else Ok (arg b "root")) with
            | Raise e => (Raise e, attrs self)
            | Ok root =>
                VideoClassificationDataFramePredictInput.predict_load_data
                  list_valid_files make_clip_sampler resolve_files RandomSampler
                  self
                  [data_frame; arg b "input_key"; root; arg b "resolver"]
                  [("clip_sampler", arg b "clip_sampler");
                   ("clip_duration", arg b "clip_duration");
                   ("clip_sampler_kwargs", arg b "clip_sampler_kwargs");
                   ("video_sampler", arg b "video_sampler");
                   ("decode_audio", arg b "decode_audio");
                   ("decoder", arg b "decoder")]
            end
        end
    end.

End Env.
End VideoClassificationCSVPredictInput.

(** ** [flash/tabular/model.py] *)

Module TabularModel.
Section Env.

(** [self.model.backbone], the steps of the parent [Task], and the batch keys
    [DataKeys.INPUT] and [DataKeys.TARGET].  A tuple is a [VList]. *)
Variable backbone : value -> result value.
Variable Task_training_step : value -> value -> result value.
Variable Task_validation_step : value -> value -> result value.
Variable Task_test_step : value -> value -> result value.
Variable DataKeys_INPUT : string.
Variable DataKeys_TARGET : string.

Definition forward (x_in : value) : result value :=
  categorical <- py_getitem x_in 0 ;;
  continuous <- py_getitem x_in 1 ;;
  out <- backbone (VDict [("categorical", categorical);
                          ("continuous", continuous)]) ;;
  py_getitem_str out "logits".

Definition training_step (batch batch_idx : value) : result value :=
  input <- py_getitem_str batch DataKeys_INPUT ;;
  target <- py_getitem_str batch DataKeys_TARGET ;;
  Task_training_step (VList [input; target]) batch_idx.

Definition validation_step (batch batch_idx : value) : result value :=
  input <- py_getitem_str batch DataKeys_INPUT ;;
  target <- py_getitem_str batch DataKeys_TARGET ;;
  Task_validation_step (VList [input; target]) batch_idx.

Definition test_step (batch batch_idx : value) : result value :=
  input <- py_getitem_str batch DataKeys_INPUT ;;
  target <- py_getitem_str batch DataKeys_TARGET ;;
  Task_test_step (VList [input; target]) batch_idx.

Definition predict_step (batch batch_idx dataloader_idx : value) : result value :=
  batch <- py_getitem_str batch DataKeys_INPUT ;;
  forward batch.

End Env.
End TabularModel.

(** ** Concrete inputs for the frame and CSV predict inputs and the tabular
    model *)
Module Fixture2.

(** A data frame is the list of its file names, a CSV file is named after
    its directory, and the resolver prefixes nothing. *)
Definition resolve_files (data_frame _ _ _ : value) : result value := Ok data_frame.

Definition read_csv (csv_file : value) : result value :=
  match csv_file with
  | VStr _ => Ok (VList [VStr "a.mp4"; VStr "b.mp4"])
  | _ => Raise (OSError "no such file")
  end.

Definition os_path_dirname (path : value) : result value :=
  match path with
  | VStr _ => Ok (VStr "videos")
  | _ => Raise TypeError
  end.

Definition RandomSampler : value := VObject 3.

Definition fresh : obj_state := ObjState PREDICTING (VList []) None ∅ [].

Definition format_target (_ : obj_state) (label : value) : result value :=
  match label with
  | VStr "cat" => Ok (VInt 0)
  | VStr "dog" => Ok (VInt 1)
  | _ => Raise (KeyError label)
  end.

Definition backbone (x : value) : result value :=
  match x with
  | VDict d => Ok (VDict [("logits", default VNone (dict_get d "continuous"))])
  | _ => Raise TypeError
  end.

Definition Task_step (batch _ : value) : result value := Ok batch.

End Fixture2.

(** ** Concrete classes, iterators and libraries *)
Module Fixture3.

(** Hooks that answer with a marker of their own. *)
Definition marker (m : string) : function :=
  fun self _ _ => (Ok (VStr m), <["seen" := VStr m]> (attrs self)).

(** [class Base(Input)] defines [predict_load_sample] and [load_sample];
    [class Derived(Base)] defines [predict_load_sample] again. *)
Definition Base_body : class_body :=
  ClassBody "Base" None
    (<["predict_load_sample" := marker "Base.predict_load_sample"]>
       (<["load_sample" := marker "Base.load_sample"]> ∅)).

Definition Derived_body : class_body :=
  ClassBody "Derived" None
    (<["predict_load_sample" := marker "Derived.predict_load_sample"]> ∅).

Definition Derived : pyclass :=
  PyClass "Derived" (Derived_body :: Base_body :: cls_mro Input).

Definition instance (stage : RunningStage) : obj_state :=
  ObjState stage (VList [VStr "x"]) None ∅ [].


(** A dataset whose data is a generator over two descriptors. *)
Definition generator_instance : obj_state :=
  ObjState TESTING (VIterator [VStr "a"; VStr "b"] 0 false) None ∅ [].

(** A dataset whose data is a library dataset that is its own iterator and
    whose [__iter__] starts over. *)
Definition library_dataset_instance : obj_state :=
  ObjState TESTING (VIterator [VStr "a"; VStr "b"] 0 true) None ∅ [].

(** A library that accepts everything; a merged configuration is the
    parameters with the task of the model configuration. *)
Definition ModelConfig___init__ (_ : PytorchTabular.ModelConfigClass) (_ _ : value)
    : result unit := Ok tt.
Definition OmegaConf_create (parameters : gmap string value)
    : result (gmap string value) := Ok parameters.
Definition OptimizerConfig___init__ : result unit := Ok tt.
Definition OmegaConf_merge (created : gmap string value)
    (model_config : PytorchTabular.ModelConfig) (_ : unit)
    : result (gmap string value) :=
  Ok (<["task" := PytorchTabular.task model_config]> created).
Definition TabNetModel___init__ (_ : gmap string value) : result unit := Ok tt.

Definition registry : PytorchTabular.FlashRegistry (gmap string value) :=
  PytorchTabular.PYTORCH_TABULAR_BACKBONES (gmap string value) unit
    ModelConfig___init__ OmegaConf_create OptimizerConfig___init__ OmegaConf_merge
    TabNetModel___init__ true.

End Fixture3.

(** ** What the framework leaves untouched *)

Section Frame.

Variable cls : pyclass.

Lemma invoke_frame c f self args kw :
  let self' := snd (invoke c f self args kw) in
  _running_stage self' = _running_stage self /\
  data self' = data self /\
  data_iter self' = data_iter self /\
  calls self' = (calls self ++ [c])%list.
Proof.
  unfold invoke. destruct (f self args kw) as [r a]. simpl. auto.
Qed.

Lemma _call_load_sample_frame self sample :
  let self' := snd (_call_load_sample cls self sample) in
  _running_stage self' = _running_stage self /\
  data self' = data self /\
  data_iter self' = data_iter self /\
  load_data_calls (calls self') = load_data_calls (calls self).
Proof.
  unfold _call_load_sample.
  destruct (getattr cls _) as [f|]; [|simpl; auto].
  destruct (invoke_frame
              (CallLoadSample
                 (_resolve_function_hierarchy "load_sample" cls (running_stage self))
                 sample) f self [sample] []) as (Hs & Hd & Hi & Hc).
  simpl in *. repeat split; auto.
  rewrite Hc. clear. induction (calls self) as [|[] log IH]; simpl; auto.
Qed.

Lemma Input___getitem___frame self index :
  let self' := snd (Input___getitem__ cls self index) in
  _running_stage self' = _running_stage self /\
  data self' = data self /\
  data_iter self' = data_iter self /\
  load_data_calls (calls self') = load_data_calls (calls self).
Proof.
  unfold Input___getitem__.
  destruct (py_getitem (data self) index); [|simpl; auto].
  apply _call_load_sample_frame.
Qed.

Lemma with_data_iter_frame self it :
  _running_stage (with_data_iter self it) = _running_stage self /\
  calls (with_data_iter self it) = calls self /\
  attrs (with_data_iter self it) = attrs self /\
  data_iter (with_data_iter self it) = Some it.
Proof. unfold with_data_iter. destruct (data self); simpl; auto. Qed.

(** On a sequence the iterator is the instance's own: [data] is not touched. *)
Lemma with_data_iter_list self it l :
  data self = VList l ->
  with_data_iter self it = set_data_iter self (Some it).
Proof. unfold with_data_iter. intros ->. reflexivity. Qed.

Lemma IterableInput___iter___frame ref self :
  let self' := snd (IterableInput___iter__ ref self) in
  _running_stage self' = _running_stage self /\
  load_data_calls (calls self') = load_data_calls (calls self).
Proof.
  unfold IterableInput___iter__.
  destruct (py_iter (data self)) as [it|]; [|simpl; auto].
  destruct (with_data_iter_frame self it) as (Hs & Hc & _). cbn [snd].
  rewrite Hs, Hc. auto.
Qed.

Lemma IterableInput___next___frame self :
  let self' := snd (IterableInput___next__ cls self) in
  _running_stage self' = _running_stage self /\
  load_data_calls (calls self') = load_data_calls (calls self).
Proof.
  unfold IterableInput___next__.
  destruct (data_iter self) as [it|]; [|simpl; auto].
  destruct (py_next it) as [[raw|e] it'].
  - destruct (_call_load_sample_frame (with_data_iter self it') raw)
      as (Hs & _ & _ & Hc).
    destruct (with_data_iter_frame self it') as (Hs' & Hc' & _).
    cbv zeta in Hs, Hc. rewrite Hs, Hc, Hs', Hc'. auto.
  - destruct (with_data_iter_frame self it') as (Hs' & Hc' & _).
    cbn [snd]. rewrite Hs', Hc'. auto.
Qed.

Lemma run_operation_frame op self :
  let self' := run_operation cls op self in
  _running_stage self' = _running_stage self /\
  load_data_calls (calls self') = load_data_calls (calls self).
Proof.
  destruct op; simpl.
  - auto.
  - destruct (Input___getitem___frame self index) as (? & ? & ? & ?). auto.
  - apply IterableInput___iter___frame.
  - apply IterableInput___next___frame.
Qed.

Lemma run_operations_frame ops : forall self,
  let self' := run_operations cls ops self in
  _running_stage self' = _running_stage self /\
  load_data_calls (calls self') = load_data_calls (calls self).
Proof.
  unfold run_operations.
  induction ops as [|op ops IH]; intros self; simpl; [auto|].
  destruct (IH (run_operation cls op self)) as (Hs & Hc).
  destruct (run_operation_frame op self) as (Hs' & Hc').
  simpl in *. rewrite Hs, Hc. auto.
Qed.

End Frame.

(** A class that derives from [InputBase] has the generic hooks. *)
Lemma lookup_member_InputBase mro name f :
  In InputBase_body mro ->
  cb_members InputBase_body !! name = Some f ->
  is_Some (lookup_member mro name).
Proof.
  induction mro as [|cb mro IH]; intros Hin Hf; [destruct Hin|].
  simpl. destruct (cb_members cb !! name) as [g|] eqn:Hg; [eauto|].
  destruct Hin as [->|Hin]; [congruence|]. auto.
Qed.

Lemma getattr_load_data cls :
  extends_InputBase cls -> is_Some (getattr cls "load_data").
Proof.
  intros H. eapply lookup_member_InputBase; [exact H|]. reflexivity.
Qed.

Lemma getattr_load_sample cls :
  extends_InputBase cls -> is_Some (getattr cls "load_sample").
Proof.
  intros H. eapply lookup_member_InputBase; [exact H|]. reflexivity.
Qed.

(** The resolved name is always a member of the class. *)
Lemma _resolve_function_hierarchy_defined cls stage name :
  is_Some (getattr cls name) ->
  is_Some (getattr cls (_resolve_function_hierarchy name cls stage)).
Proof.
  intros H. unfold _resolve_function_hierarchy.
  destruct (getattr cls (stage_hook_name stage name)) eqn:E; [rewrite E; eauto|done].
Qed.

Lemma _call_load_data_frame cls self args kw :
  let self' := snd (_call_load_data cls self args kw) in
  _running_stage self' = _running_stage self /\
  data self' = data self /\
  data_iter self' = data_iter self.
Proof.
  unfold _call_load_data.
  destruct (getattr cls _) as [f|]; [|simpl; auto].
  destruct (invoke_frame
              (CallLoadData
                 (_resolve_function_hierarchy "load_data" cls (running_stage self))
                 args kw) f self args kw) as (Hs & Hd & Hi & _).
  simpl in *. auto.
Qed.

(** When the hook is found, [_call_load_data] logs exactly one call. *)
Lemma _call_load_data_calls cls self args kw :
  extends_InputBase cls ->
  calls (snd (_call_load_data cls self args kw)) =
    (calls self ++
     [CallLoadData (_resolve_function_hierarchy "load_data" cls (running_stage self))
        args kw])%list.
Proof.
  intros Hcls. unfold _call_load_data.
  destruct (_resolve_function_hierarchy_defined cls (running_stage self) "load_data"
              (getattr_load_data cls Hcls)) as [f Hf].
  rewrite Hf. apply invoke_frame.
Qed.

Lemma InputBase___init___state cls stage args kw :
  let self := snd (InputBase___init__ cls stage args kw) in
  _running_stage self = stage /\ data_iter self = None.
Proof.
  unfold InputBase___init__.
  destruct args as [|a0 args]; [simpl; auto|].
  destruct (is_None a0); [simpl; auto|].
  pose proof (_call_load_data_frame cls
                (ObjState stage (VList []) None ∅ []) (a0 :: args) kw) as H.
  destruct (_call_load_data cls _ (a0 :: args) kw) as [[d|e] self'];
    simpl in *; destruct H as (Hs & _ & Hi); auto.
Qed.

(** ** The stage-aware resolver *)

(** Attribute lookup stops at the first class of the MRO that defines the
    name. *)
Lemma lookup_member_first derived definer ancestors name f :
  defined_nowhere name derived ->
  cb_members definer !! name = Some f ->
  lookup_member (derived ++ definer :: ancestors)%list name = Some f.
Proof.
  intros Hderived Hf. induction Hderived as [|d derived Hd _ IH]; simpl.
  - rewrite Hf. reflexivity.
  - rewrite Hd. exact IH.
Qed.

Lemma lookup_member_undefined mro name :
  defined_nowhere name mro -> lookup_member mro name = None.
Proof.
  intros H. induction H as [|d mro Hd _ IH]; simpl; [reflexivity|].
  rewrite Hd. exact IH.
Qed.

(** C1.  Let the MRO of the class be [derived ++ definer :: ancestors] and
    [S] the running stage of the instance.  If [definer] is the first class
    to define [prefix(S)_load_data], then [_call_load_data] returns what that
    member returns on the instance and the arguments, and keeps the
    attributes it stores, whatever the ancestors or the generic [load_data]
    are: with [derived] empty this is the override of the concrete class.
    If no class defines [prefix(S)_load_data] and [definer] is the first to
    define [load_data], the generic hook is the one applied.  The same holds
    of [_call_load_sample] with [prefix(S)_load_sample] and [load_sample].
    The prefixes are train, val, test, predict, sanity_check and tune. *)
Theorem stage_override_selected_else_generic
    (cls : pyclass) (self : obj_state)
    (derived : list class_body) (definer : class_body)
    (ancestors : list class_body) (hook : function) :
  cls_mro cls = (derived ++ definer :: ancestors)%list ->
  (defined_nowhere (stage_hook_name (running_stage self) "load_data") derived ->
   cb_members definer !! stage_hook_name (running_stage self) "load_data" = Some hook ->
   forall args kw,
     _call_load_data cls self args kw =
       (fst (hook self args kw),
        log_call (set_attrs self (snd (hook self args kw)))
          (CallLoadData (stage_hook_name (running_stage self) "load_data") args kw))) /\
  (defined_nowhere (stage_hook_name (running_stage self) "load_data") (cls_mro cls) ->
   defined_nowhere "load_data" derived ->
   cb_members definer !! "load_data" = Some hook ->
   forall args kw,
     _call_load_data cls self args kw =
       (fst (hook self args kw),
        log_call (set_attrs self (snd (hook self args kw)))
          (CallLoadData "load_data" args kw))) /\
  (defined_nowhere (stage_hook_name (running_stage self) "load_sample") derived ->
   cb_members definer !! stage_hook_name (running_stage self) "load_sample" = Some hook ->
   forall sample,
     _call_load_sample cls self sample =
       (fst (hook self [sample] []),
        log_call (set_attrs self (snd (hook self [sample] [])))
          (CallLoadSample (stage_hook_name (running_stage self) "load_sample") sample))) /\
  (defined_nowhere (stage_hook_name (running_stage self) "load_sample") (cls_mro cls) ->
   defined_nowhere "load_sample" derived ->
   cb_members definer !! "load_sample" = Some hook ->
   forall sample,
     _call_load_sample cls self sample =
       (fst (hook self [sample] []),
        log_call (set_attrs self (snd (hook self [sample] [])))
          (CallLoadSample "load_sample" sample))) /\
  map (fun stage => stage_hook_name stage "load_data")
      [TRAINING; VALIDATING; TESTING; PREDICTING; SANITY_CHECKING; TUNING] =
    ["train_load_data"; "val_load_data"; "test_load_data"; "predict_load_data";
     "sanity_check_load_data"; "tune_load_data"] /\
  map (fun stage => stage_hook_name stage "load_sample")
      [TRAINING; VALIDATING; TESTING; PREDICTING; SANITY_CHECKING; TUNING] =
    ["train_load_sample"; "val_load_sample"; "test_load_sample";
     "predict_load_sample"; "sanity_check_load_sample"; "tune_load_sample"].
Proof.
  intros Hmro.
  split; [|split; [|split; [|split; [|split; reflexivity]]]].
  - intros Hderived Hhook args kw.
    pose proof (lookup_member_first derived definer ancestors _ hook Hderived Hhook)
      as Hget.
    unfold _call_load_data, _resolve_function_hierarchy, getattr, invoke.
    rewrite Hmro, Hget, Hget. destruct (hook self args kw). reflexivity.
  - intros Hnone Hderived Hhook args kw.
    pose proof (lookup_member_first derived definer ancestors _ hook Hderived Hhook)
      as Hget.
    pose proof (lookup_member_undefined _ _ Hnone) as Hno.
    unfold _call_load_data, _resolve_function_hierarchy, getattr, invoke.
    rewrite Hno, Hmro, Hget. destruct (hook self args kw). reflexivity.
  - intros Hderived Hhook sample.
    pose proof (lookup_member_first derived definer ancestors _ hook Hderived Hhook)
      as Hget.
    unfold _call_load_sample, _resolve_function_hierarchy, getattr, invoke.
    rewrite Hmro, Hget, Hget. destruct (hook self [sample] []). reflexivity.
  - intros Hnone Hderived Hhook sample.
    pose proof (lookup_member_first derived definer ancestors _ hook Hderived Hhook)
      as Hget.
    pose proof (lookup_member_undefined _ _ Hnone) as Hno.
    unfold _call_load_sample, _resolve_function_hierarchy, getattr, invoke.
    rewrite Hno, Hmro, Hget. destruct (hook self [sample] []). reflexivity.
Qed.

Lemma stage_override_selected_else_generic_witness :
  _call_load_sample Fixture3.Derived (Fixture3.instance PREDICTING) (VStr "x") =
    (Ok (VStr "Derived.predict_load_sample"),
     ObjState PREDICTING (VList [VStr "x"]) None
       (<["seen" := VStr "Derived.predict_load_sample"]> ∅)
       [CallLoadSample "predict_load_sample" (VStr "x")]) /\
  _call_load_sample Fixture3.Derived (Fixture3.instance TRAINING) (VStr "x") =
    (Ok (VStr "Base.load_sample"),
     ObjState TRAINING (VList [VStr "x"]) None
       (<["seen" := VStr "Base.load_sample"]> ∅)
       [CallLoadSample "load_sample" (VStr "x")]).
Proof.
  split.
  - destruct (stage_override_selected_else_generic Fixture3.Derived
                (Fixture3.instance PREDICTING) [] Fixture3.Derived_body
                (Fixture3.Base_body :: cls_mro Input)
                (Fixture3.marker "Derived.predict_load_sample") eq_refl)
      as (_ & _ & Hoverride & _).
    rewrite (Hoverride ltac:(constructor) eq_refl (VStr "x")). reflexivity.
  - destruct (stage_override_selected_else_generic Fixture3.Derived
                (Fixture3.instance TRAINING) [Fixture3.Derived_body] Fixture3.Base_body
                (cls_mro Input)
                (Fixture3.marker "Base.load_sample") eq_refl)
      as (_ & _ & _ & Hgeneric & _).
    rewrite (Hgeneric
               ltac:(repeat constructor)
               ltac:(repeat constructor)
               eq_refl (VStr "x")).
    reflexivity.
Defined.

(** The predict input of the video task: its [predict_] hooks are the ones
    called when predicting, the generic hooks of [InputBase] otherwise. *)
Example predict_input_resolution :
  calls Fixture.predict_instance =
    [CallLoadData "predict_load_data" [Fixture.paths] []] /\
  calls (snd (InputBase___init__ Fixture.PredictInput TRAINING [Fixture.paths] [])) =
    [CallLoadData "load_data" [Fixture.paths] []] /\
  _resolve_function_hierarchy "load_sample" Fixture.PredictInput PREDICTING =
    "predict_load_sample" /\
  _resolve_function_hierarchy "load_sample" Fixture.PredictInput VALIDATING =
    "load_sample".
Proof. repeat split; vm_compute; reflexivity. Qed.

(** ** Construction *)

(** What the constructor does with the outcome of the hook. *)
Lemma InputBase___init___outcome cls stage a0 rest kw (load_data : function) :
  is_None a0 = false ->
  getattr cls (_resolve_function_hierarchy "load_data" cls stage) = Some load_data ->
  InputBase___init__ cls stage (a0 :: rest) kw =
    match fst (load_data (ObjState stage (VList []) None ∅ []) (a0 :: rest) kw) with
    | Ok d =>
        (Ok tt,
         ObjState stage d None
           (snd (load_data (ObjState stage (VList []) None ∅ []) (a0 :: rest) kw))
           [CallLoadData (_resolve_function_hierarchy "load_data" cls stage)
              (a0 :: rest) kw])
    | Raise e =>
        (Raise e,
         ObjState stage (VList []) None
           (snd (load_data (ObjState stage (VList []) None ∅ []) (a0 :: rest) kw))
           [CallLoadData (_resolve_function_hierarchy "load_data" cls stage)
              (a0 :: rest) kw])
    end.
Proof.
  intros Ha0 Hget.
  unfold InputBase___init__, _call_load_data, invoke. rewrite Ha0.
  cbn [running_stage _running_stage]. rewrite Hget.
  destruct (load_data _ (a0 :: rest) kw) as [[d|e] a]; reflexivity.
Qed.

(** C2.  Constructed with [None] as first load-argument, a dataset is empty
    (its length is 0 and the first [__next__] of a pass raises
    [StopIteration]) and no [load_data] hook has been called.  Constructed
    with any other first argument, the resolved [load_data] hook of a class
    deriving from [InputBase] is applied once, to the fresh instance and the
    arguments of the constructor: what it returns becomes [data], what it
    raises leaves the constructor, and the attributes it stores are kept;
    afterwards the log holds that one call, and no public operation calls
    the hook again. *)
Theorem load_data_gated_by_first_argument
    (cls : pyclass) (stage : RunningStage) (rest : list value) (kw : kwargs) :
  (let self := snd (InputBase___init__ cls stage (VNone :: rest) kw) in
   fst (InputBase___init__ cls stage (VNone :: rest) kw) = Ok tt /\
   calls self = [] /\
   attrs self = ∅ /\
   data self = VList [] /\
   Input___len__ self = Ok 0 /\
   forall ref,
     let '(handle, self1) := IterableInput___iter__ ref self in
     handle = Ok ref /\
     fst (IterableInput___next__ cls self1) = Raise StopIteration /\
     calls (snd (IterableInput___next__ cls self1)) = []) /\
  (forall a0 : value,
     is_None a0 = false ->
     extends_InputBase cls ->
     let self := snd (InputBase___init__ cls stage (a0 :: rest) kw) in
     (exists load_data : function,
        getattr cls (_resolve_function_hierarchy "load_data" cls stage) =
          Some load_data /\
        InputBase___init__ cls stage (a0 :: rest) kw =
          match fst (load_data (ObjState stage (VList []) None ∅ []) (a0 :: rest) kw)
          with
          | Ok d =>
              (Ok tt,
               ObjState stage d None
                 (snd (load_data (ObjState stage (VList []) None ∅ [])
                         (a0 :: rest) kw))
                 [CallLoadData (_resolve_function_hierarchy "load_data" cls stage)
                    (a0 :: rest) kw])
          | Raise e =>
              (Raise e,
               ObjState stage (VList []) None
                 (snd (load_data (ObjState stage (VList []) None ∅ [])
                         (a0 :: rest) kw))
                 [CallLoadData (_resolve_function_hierarchy "load_data" cls stage)
                    (a0 :: rest) kw])
          end) /\
     calls self =
       [CallLoadData (_resolve_function_hierarchy "load_data" cls stage)
          (a0 :: rest) kw] /\
     load_data_calls (calls self) = 1%nat /\
     forall ops, load_data_calls (calls (run_operations cls ops self)) = 1%nat).
Proof.
  split.
  - simpl. repeat split; reflexivity.
  - intros a0 Ha0 Hcls self.
    destruct (_resolve_function_hierarchy_defined cls stage "load_data"
                (getattr_load_data cls Hcls)) as [load_data Hget].
    pose proof (InputBase___init___outcome cls stage a0 rest kw load_data Ha0 Hget)
      as Hinit.
    assert (Hcalls : calls self =
              [CallLoadData (_resolve_function_hierarchy "load_data" cls stage)
                 (a0 :: rest) kw]).
    { subst self. rewrite Hinit.
      destruct (fst (load_data _ (a0 :: rest) kw)); reflexivity. }
    split; [exists load_data; split; [exact Hget|exact Hinit]|].
    split; [exact Hcalls|]. split; [rewrite Hcalls; reflexivity|].
    intros ops. destruct (run_operations_frame cls ops self) as (_ & Hc).
    cbv zeta in Hc. rewrite Hc, Hcalls. reflexivity.
Qed.

Lemma load_data_gated_by_first_argument_witness :
  is_None Fixture.paths = false /\
  extends_InputBase Fixture.PredictInput /\
  (exists load_data : function,
     getattr Fixture.PredictInput "predict_load_data" = Some load_data /\
     InputBase___init__ Fixture.PredictInput PREDICTING [Fixture.paths] [] =
       match fst (load_data (ObjState PREDICTING (VList []) None ∅ [])
                    [Fixture.paths] []) with
       | Ok d =>
           (Ok tt,
            ObjState PREDICTING d None
              (snd (load_data (ObjState PREDICTING (VList []) None ∅ [])
                      [Fixture.paths] []))
              [CallLoadData "predict_load_data" [Fixture.paths] []])
       | Raise e =>
           (Raise e,
            ObjState PREDICTING (VList []) None
              (snd (load_data (ObjState PREDICTING (VList []) None ∅ [])
                      [Fixture.paths] []))
              [CallLoadData "predict_load_data" [Fixture.paths] []])
       end) /\
  data Fixture.predict_instance = Fixture.paths /\
  calls Fixture.predict_instance =
    [CallLoadData "predict_load_data" [Fixture.paths] []] /\
  load_data_calls
    (calls (run_operations Fixture.PredictInput [OpLen; OpGetItem 0; OpGetItem 1]
              Fixture.predict_instance)) = 1%nat.
Proof.
  assert (Hcls : extends_InputBase Fixture.PredictInput).
  { right. right. left. reflexivity. }
  destruct (load_data_gated_by_first_argument Fixture.PredictInput PREDICTING [] [])
    as [_ H].
  destruct (H Fixture.paths eq_refl Hcls) as (Hhook & Hcalls & _ & Hops).
  split; [reflexivity|]. split; [exact Hcls|].
  split; [exact Hhook|]. split; [reflexivity|].
  split; [exact Hcalls|]. apply Hops.
Defined.

(** C9.  With no load-argument at all the constructor raises ([IndexError],
    from reading [args[0]]), whatever the keywords; this is not the
    empty dataset that [None] gives. *)
Theorem missing_load_argument_raises
    (cls : pyclass) (stage : RunningStage) (kw : kwargs) :
  fst (InputBase___init__ cls stage [] kw) = Raise IndexError /\
  calls (snd (InputBase___init__ cls stage [] kw)) = [] /\
  fst (InputBase___init__ cls stage [VNone] kw) = Ok tt /\
  data (snd (InputBase___init__ cls stage [VNone] kw)) = VList [].
Proof. repeat split; reflexivity. Qed.

(** ** The running stage *)

(** C8.  The stage given to the constructor is the one the instance records,
    and no sequence of [__len__], [__getitem__], [__iter__] and [__next__]
    changes the recorded stage of an instance: the hooks are resolved for the
    same stage throughout. *)
Theorem running_stage_immutable (cls : pyclass) (ops : list operation) :
  (forall self,
     running_stage (run_operations cls ops self) = running_stage self /\
     forall name,
       _resolve_function_hierarchy name cls
         (running_stage (run_operations cls ops self)) =
       _resolve_function_hierarchy name cls (running_stage self)) /\
  (forall stage args kw,
     running_stage (snd (InputBase___init__ cls stage args kw)) = stage /\
     running_stage
       (run_operations cls ops (snd (InputBase___init__ cls stage args kw))) = stage).
Proof.
  assert (H : forall self,
             running_stage (run_operations cls ops self) = running_stage self).
  { intros self. apply (run_operations_frame cls ops self). }
  split.
  - intros self. split; [apply H|]. intros name. rewrite H. reflexivity.
  - intros stage args kw.
    destruct (InputBase___init___state cls stage args kw) as [Hs _].
    split; [exact Hs|]. rewrite H. exact Hs.
Qed.

(** ** Random access *)

Lemma list_getitem_in_range (l : list value) (i : Z) :
  0 <= i < Z.of_nat (length l) ->
  exists x, l !! Z.to_nat i = Some x /\ list_getitem l i = Ok x.
Proof.
  intros Hi. unfold list_getitem.
  replace (i <? 0) with false by lia.
  replace ((i <? 0) || (Z.of_nat (length l) <=? i)) with false by lia.
  destruct (l !! Z.to_nat i) as [x|] eqn:E; [eauto|].
  apply lookup_ge_None in E. lia.
Qed.

Lemma list_getitem_negative (l : list value) (i : Z) :
  - Z.of_nat (length l) <= i < 0 ->
  list_getitem l i = list_getitem l (Z.of_nat (length l) + i).
Proof.
  intros Hi. unfold list_getitem.
  replace (i <? 0) with true by lia.
  replace (Z.of_nat (length l) + i <? 0) with false by lia.
  rewrite (Z.add_comm i). reflexivity.
Qed.

Lemma list_getitem_out_of_range (l : list value) (i : Z) :
  i < - Z.of_nat (length l) \/ Z.of_nat (length l) <= i ->
  list_getitem l i = Raise IndexError.
Proof.
  intros Hi. unfold list_getitem.
  destruct (i <? 0) eqn:E.
  - replace ((i + Z.of_nat (length l) <? 0) || (Z.of_nat (length l) <=? i + Z.of_nat (length l)))
      with true by lia. reflexivity.
  - replace ((i <? 0) || (Z.of_nat (length l) <=? i)) with true by lia. reflexivity.
Qed.

(** C3 as the code has it.  For a random-access dataset whose raw collection
    is a list of [N] descriptors: [__len__] returns [N]; [__getitem__(i)]
    returns the resolved [load_sample] hook applied to the [i]-th descriptor
    when [0 <= i < N] and to the [(N+i)]-th when [-N <= i < 0]; it raises
    [IndexError], without calling any hook, when [i >= N] or [i < -N]. *)
Theorem Input_indexing (cls : pyclass) (self : obj_state) (raw : list value) (i : Z) :
  data self = VList raw ->
  let N := Z.of_nat (length raw) in
  Input___len__ self = Ok N /\
  (0 <= i < N ->
   exists x, raw !! Z.to_nat i = Some x /\
             Input___getitem__ cls self i = _call_load_sample cls self x) /\
  (- N <= i < 0 ->
   exists x, raw !! Z.to_nat (N + i) = Some x /\
             Input___getitem__ cls self i = _call_load_sample cls self x) /\
  (i < - N \/ N <= i ->
   Input___getitem__ cls self i = (Raise IndexError, self)).
Proof.
  intros Hdata N. unfold Input___len__, Input___getitem__. rewrite Hdata. simpl.
  split; [reflexivity|]. split; [|split].
  - intros Hi. destruct (list_getitem_in_range raw i Hi) as (x & Hx & Hg).
    exists x. rewrite Hg. auto.
  - intros Hi. rewrite (list_getitem_negative raw i Hi).
    destruct (list_getitem_in_range raw (N + i)) as (x & Hx & Hg); [subst N; lia|].
    exists x. subst N. rewrite Hg. auto.
  - intros Hi. rewrite (list_getitem_out_of_range raw i Hi). reflexivity.
Qed.

Lemma Input_indexing_witness :
  Input___len__ Fixture.predict_instance = Ok 2 /\
  Input___getitem__ Fixture.PredictInput Fixture.predict_instance 2 =
    (Raise IndexError, Fixture.predict_instance).
Proof.
  destruct (Input_indexing Fixture.PredictInput Fixture.predict_instance
              [VStr "a.mp4"; VStr "b.mp4"] 2 eq_refl) as (Hlen & _ & _ & Hout).
  split; [exact Hlen|]. apply Hout. right. simpl. lia.
Defined.

(** C3 as the specification words it fails: a negative index within
    [-N .. -1] does not raise, it reads from the end of the collection. *)
Lemma Input_negative_index_counterexample :
  ~ (forall (cls : pyclass) (self : obj_state) (raw : list value) (i : Z),
       data self = VList raw ->
       i < 0 \/ Z.of_nat (length raw) <= i ->
       fst (Input___getitem__ cls self i) = Raise IndexError).
Proof.
  intros H.
  specialize (H Input (ObjState TRAINING (VList [VStr "a"; VStr "b"]) None ∅ [])
                [VStr "a"; VStr "b"] (-1) eq_refl).
  assert (Hget : fst (Input___getitem__ Input
                        (ObjState TRAINING (VList [VStr "a"; VStr "b"]) None ∅ [])
                        (-1)) = Ok (VStr "b")) by (vm_compute; reflexivity).
  rewrite Hget in H. discriminate H. left. lia.
Qed.

(** ** Streaming *)

Section Streaming.

Variable cls : pyclass.

Lemma set_data_iter_same self it :
  data_iter self = Some it -> set_data_iter self (Some it) = self.
Proof. destruct self; simpl; intros ->; reflexivity. Qed.

Lemma with_data_iter_data self it :
  data (with_data_iter self it) =
    match data self with
    | VIterator _ _ rewinds => VIterator (it_items it) (it_pos it) rewinds
    | d => d
    end.
Proof. unfold with_data_iter. destruct self as [st d di a c], d; reflexivity. Qed.

(** The cursor is in step with the data when writing it back changes
    nothing; states that agree on [data] and [data_iter] agree on that. *)
Lemma with_data_iter_transfer self self' it :
  data self' = data self ->
  data_iter self' = data_iter self ->
  with_data_iter self it = self ->
  with_data_iter self' it = self'.
Proof.
  intros Hd Hi Hs.
  assert (Hit : data_iter self = Some it)
    by (rewrite <- Hs; apply with_data_iter_frame).
  assert (Hsd : data (with_data_iter self it) = data self) by (rewrite Hs; reflexivity).
  rewrite with_data_iter_data, <- Hd in Hsd. rewrite Hit in Hi. clear Hd Hs Hit.
  destruct self' as [st d di a c]. simpl in Hi, Hsd. subst di.
  unfold with_data_iter. destruct d; simpl in *; try reflexivity.
  rewrite Hsd. reflexivity.
Qed.

Lemma with_data_iter_twice self it it' :
  with_data_iter (with_data_iter self it) it' = with_data_iter self it'.
Proof. unfold with_data_iter. destruct self as [st d di a c], d; reflexivity. Qed.


Lemma advance_frame self :
  _running_stage (advance self) = _running_stage self /\
  calls (advance self) = calls self /\
  attrs (advance self) = attrs self.
Proof.
  unfold advance. destruct (data_iter self) as [it|]; [|auto].
  destruct (with_data_iter_frame self (Iterator (it_items it) (S (it_pos it))))
    as (Hs & Hc & Ha & _). auto.
Qed.

Lemma advance_list self l : data self = VList l -> data (advance self) = VList l.
Proof.
  intros H. unfold advance. destruct (data_iter self) as [it|]; [|exact H].
  rewrite (with_data_iter_list self _ l H). exact H.
Qed.

Lemma advance_cursor self items pos :
  data_iter self = Some (Iterator items pos) ->
  data_iter (advance self) = Some (Iterator items (S pos)).
Proof.
  intros H. unfold advance. rewrite H. apply with_data_iter_frame.
Qed.

Lemma advance_in_step self items pos :
  data_iter self = Some (Iterator items pos) ->
  with_data_iter (advance self) (Iterator items (S pos)) = advance self.
Proof. intros H. unfold advance. rewrite H. apply with_data_iter_twice. Qed.

(** One step, with a descriptor left under the cursor. *)
Lemma IterableInput___next___step self items pos x :
  data_iter self = Some (Iterator items pos) ->
  items !! pos = Some x ->
  IterableInput___next__ cls self = _call_load_sample cls (advance self) x.
Proof.
  intros Hit Hx. unfold IterableInput___next__, advance, py_next.
  rewrite Hit. cbn [it_items it_pos]. rewrite Hx. reflexivity.
Qed.

(** One step, with the cursor at the end. *)
Lemma IterableInput___next___exhausted self items pos :
  with_data_iter self (Iterator items pos) = self ->
  items !! pos = None ->
  IterableInput___next__ cls self = (Raise StopIteration, self).
Proof.
  intros Hs Hx.
  assert (Hit : data_iter self = Some (Iterator items pos))
    by (rewrite <- Hs; apply with_data_iter_frame).
  unfold IterableInput___next__, py_next.
  rewrite Hit. cbn [it_items it_pos]. rewrite Hx, Hs. reflexivity.
Qed.


Lemma load_samples_in_step rest : forall self items pos,
  data_iter self = Some (Iterator items pos) ->
  with_data_iter self (Iterator items pos) = self ->
  with_data_iter (snd (load_samples cls rest self))
    (Iterator items (pos + length rest)) = snd (load_samples cls rest self).
Proof.
  induction rest as [|x rest IH]; intros self items pos Hit Hs; simpl.
  - rewrite Nat.add_0_r. exact Hs.
  - destruct (_call_load_sample_frame cls (advance self) x) as (_ & Hd & Hi & _).
    pose proof (with_data_iter_transfer _ _ _ Hd Hi (advance_in_step _ _ _ Hit))
      as Hs1.
    rewrite (advance_cursor _ _ _ Hit) in Hi.
    destruct (_call_load_sample cls (advance self) x) as [r self1].
    cbn [snd] in Hi, Hs1.
    specialize (IH self1 items (S pos) Hi Hs1).
    destruct (load_samples cls rest self1) as [rs self2]. cbn [snd] in *.
    replace (pos + S (length rest))%nat with (S pos + length rest)%nat by lia.
    exact IH.
Qed.

Lemma load_samples_length rest : forall self,
  length (fst (load_samples cls rest self)) = length rest.
Proof.
  induction rest as [|x rest IH]; intros self; simpl; [reflexivity|].
  destruct (_call_load_sample cls (advance self) x) as [r self1].
  specialize (IH self1).
  destruct (load_samples cls rest self1) as [rs self2]. simpl in *. congruence.
Qed.

(** From any position, stepping over the next descriptors loads exactly
    those descriptors, in order. *)
Lemma nexts_load_samples rest : forall self done more,
  data_iter self = Some (Iterator (done ++ rest ++ more) (length done)) ->
  nexts cls (length rest) self = load_samples cls rest self.
Proof.
  induction rest as [|x rest IH]; intros self done more Hit; simpl;
    [reflexivity|].
  rewrite (IterableInput___next___step self _ (length done) x Hit)
    by (rewrite lookup_app_r, Nat.sub_diag by lia; reflexivity).
  destruct (_call_load_sample_frame cls (advance self) x) as (_ & _ & Hi & _).
  rewrite (advance_cursor _ _ _ Hit) in Hi.
  destruct (_call_load_sample cls (advance self) x) as [r self1].
  cbn [snd] in Hi.
  rewrite (IH self1 (done ++ [x])%list more); [reflexivity|].
  rewrite Hi, <- app_assoc, length_app. simpl. f_equal. f_equal. lia.
Qed.

Lemma nexts_take self raw i :
  data_iter self = Some (Iterator raw 0) ->
  (i <= length raw)%nat ->
  nexts cls i self = load_samples cls (take i raw) self.
Proof.
  intros Hit Hi.
  assert (Hlen : length (take i raw) = i) by (rewrite length_take; lia).
  rewrite <- Hlen at 1.
  apply (nexts_load_samples (take i raw) self [] (drop i raw)).
  simpl. rewrite take_drop. exact Hit.
Qed.


Lemma nexts_in_step self raw i :
  with_data_iter self (Iterator raw 0) = self ->
  (i <= length raw)%nat ->
  with_data_iter (snd (nexts cls i self)) (Iterator raw i) = snd (nexts cls i self).
Proof.
  intros Hs Hi.
  assert (Hit : data_iter self = Some (Iterator raw 0))
    by (rewrite <- Hs; apply with_data_iter_frame).
  rewrite (nexts_take self raw i Hit Hi).
  pose proof (load_samples_in_step (take i raw) self raw 0 Hit Hs) as H.
  rewrite length_take in H.
  replace (0 + i `min` length raw)%nat with i in H by lia. exact H.
Qed.

(** A list is not consumed by iterating over it. *)
Lemma IterableInput___next___list self l :
  data self = VList l -> data (snd (IterableInput___next__ cls self)) = VList l.
Proof.
  intros Hdata. unfold IterableInput___next__.
  destruct (data_iter self) as [it|]; [|exact Hdata].
  destruct (py_next it) as [[raw|e] it'];
    rewrite (with_data_iter_list self it' l Hdata).
  - destruct (_call_load_sample_frame cls (set_data_iter self (Some it')) raw)
      as (_ & Hd & _). cbv zeta in Hd. rewrite Hd. exact Hdata.
  - exact Hdata.
Qed.

Lemma nexts_data n : forall self l,
  data self = VList l -> data (snd (nexts cls n self)) = VList l.
Proof.
  induction n as [|n IH]; intros self l Hdata; simpl; [exact Hdata|].
  pose proof (IterableInput___next___list self l Hdata) as Hd.
  destruct (IterableInput___next__ cls self) as [r self1]. cbn [snd] in Hd.
  specialize (IH self1 l Hd).
  destruct (nexts cls n self1) as [rs self2]. exact IH.
Qed.





Lemma IterableInput___iter___list ref self raw :
  data self = VList raw ->
  IterableInput___iter__ ref self =
    (Ok ref, set_data_iter self (Some (Iterator raw 0))).
Proof.
  intros H. unfold IterableInput___iter__. rewrite H. cbn [py_iter].
  rewrite (with_data_iter_list self _ raw H). reflexivity.
Qed.

Lemma set_data_iter_in_step self l it :
  data self = VList l ->
  with_data_iter (set_data_iter self (Some it)) it = set_data_iter self (Some it).
Proof.
  intros H. rewrite <- (with_data_iter_list self it l H).
  apply with_data_iter_twice.
Qed.

(** A whole pass from a fresh cursor. *)
Lemma fresh_pass self raw :
  with_data_iter self (Iterator raw 0) = self ->
  nexts cls (length raw) self = load_samples cls raw self /\
  length (fst (nexts cls (length raw) self)) = length raw /\
  IterableInput___next__ cls (snd (nexts cls (length raw) self)) =
    (Raise StopIteration, snd (nexts cls (length raw) self)).
Proof.
  intros Hs.
  assert (Hit : data_iter self = Some (Iterator raw 0))
    by (rewrite <- Hs; apply with_data_iter_frame).
  assert (Hn : nexts cls (length raw) self = load_samples cls raw self)
    by (apply (nexts_load_samples raw self [] []);
        simpl; rewrite app_nil_r; exact Hit).
  split; [exact Hn|]. split; [rewrite Hn; apply load_samples_length|].
  apply (IterableInput___next___exhausted _ raw (length raw)).
  - apply nexts_in_step; [exact Hs|lia].
  - apply lookup_ge_None. lia.
Qed.




End Streaming.




(** A library dataset whose own [__iter__] starts over is restartable as a
    list is, although [data_iter] and [data] are then one object. *)
Example library_dataset_restarts :
  let '(_, s1) := IterableInput___iter__ 0%nat Fixture3.library_dataset_instance in
  let '(sample1, s2) := IterableInput___next__ IterableInput s1 in
  let '(_, s3) := IterableInput___iter__ 0%nat s2 in
  let '(samples, s4) := nexts IterableInput 2 s3 in
  sample1 = Ok (VStr "a") /\
  samples = [Ok (VStr "a"); Ok (VStr "b")] /\
  fst (IterableInput___next__ IterableInput s4) = Raise StopIteration.
Proof. vm_compute. repeat split; reflexivity. Qed.

(** ** Handles *)





(** The same on values: over a list the second [__next__] of an interleaved
    consumer yields the first descriptor again, over a generator the
    second. *)
Example interleaved_passes_restart :
  let h := <[0%nat := (IterableInput,
                       ObjState TESTING (VList [VStr "a"; VStr "b"]) None ∅ [])]>
             (<[1%nat := (IterableInput, Fixture3.generator_instance)]> (∅ : heap)) in
  let '(first_handle, h1) := beginIteration 0%nat h in
  let '(sample1, h2) := next 0%nat h1 in
  let '(second_handle, h3) := beginIteration 0%nat h2 in
  let '(sample2, h4) := next 0%nat h3 in
  let '(_, h5) := beginIteration 1%nat h4 in
  let '(generated1, h6) := next 1%nat h5 in
  let '(_, h7) := beginIteration 1%nat h6 in
  let '(generated2, _) := next 1%nat h7 in
  first_handle = second_handle /\
  sample1 = Ok (VStr "a") /\ sample2 = Ok (VStr "a") /\
  generated1 = Ok (VStr "a") /\ generated2 = Ok (VStr "b").
Proof. vm_compute. repeat split; reflexivity. Qed.

(** ** Class definition *)







(** The classes of the sources are accepted by their metaclasses. *)
Example source_classes_defined :
  _InputMeta___new__ "Input" [InputBase_body] None ∅ = Ok Input /\
  _IterableInputMeta___new__ "IterableInput" [InputBase_body] None ∅ =
    Ok IterableInput /\
  _InputMeta___new__ "VideoClassificationPathsPredictInput" (cls_mro Input) None
    (VideoClassificationPathsPredictInput_members
       Fixture.list_valid_files Fixture.make_clip_sampler
       Fixture.EncodedVideo_from_path Fixture.call_clip_sampler
       Fixture.sampler__clip_duration Fixture.py_str "metadata") =
    Ok Fixture.PredictInput.
Proof. repeat split; reflexivity. Qed.

(** ** The video predict input *)

Section PredictLoadSample.

Variable EncodedVideo_from_path : value -> value -> value -> result EncodedVideo.
Variable call_clip_sampler : value -> value -> value -> value -> result ClipInfo.
Variable sampler__clip_duration : value -> result value.
Variable py_str : value -> string.
Variable DataKeys_METADATA : string.

Lemma clip_is_null_spec self clip decode_audio :
  attrs self !! "_decode_audio" = Some decode_audio ->
  clip_is_null self (clip_value clip) = Ok (decoded_clip_is_null clip decode_audio).
Proof.
  intros Hda. destruct clip as [[video audio]|]; [|reflexivity].
  unfold clip_is_null, getattr_value. simpl.
  destruct (is_None video); [reflexivity|]. simpl.
  destruct (is_None audio); [|reflexivity]. simpl.
  rewrite Hda. reflexivity.
Qed.

(** C6 as the code has it.  Once the video is opened and the clip sampled
    and decoded: when the decoded clip is null, [predict_load_sample] raises
    a [MisconfigurationException] whose message gives the duration of the
    video and the clip duration of the sampler, and nothing else; when it
    is not null, the sample mapping is returned, with ["audio"] present only
    if there are audio samples. *)
Theorem predict_load_sample_too_short
    (self : obj_state) (sample decode_audio decoder sampler : value)
    (video : EncodedVideo) (info : ClipInfo) (clip : option (value * value)) :
  attrs self !! "_decode_audio" = Some decode_audio ->
  attrs self !! "_decoder" = Some decoder ->
  attrs self !! "_clip_sampler" = Some sampler ->
  EncodedVideo_from_path sample decode_audio decoder = Ok video ->
  call_clip_sampler sampler (VFloat 0 1) (video_duration video) VNone = Ok info ->
  video_get_clip video (clip_start info) (clip_end info) = Ok (clip_value clip) ->
  (forall clip_duration : value,
     decoded_clip_is_null clip decode_audio = true ->
     sampler__clip_duration sampler = Ok clip_duration ->
     predict_load_sample_body EncodedVideo_from_path call_clip_sampler
       sampler__clip_duration py_str DataKeys_METADATA self sample =
       Raise (MisconfigurationException
                (String.append "The provided video is too short "
                   (String.append (py_str (video_duration video))
                      (String.append " to be clipped at "
                         (py_str clip_duration)))))) /\
  (forall frames audio_samples : value,
     clip = Some (frames, audio_samples) ->
     decoded_clip_is_null clip decode_audio = false ->
     predict_load_sample_body EncodedVideo_from_path call_clip_sampler
       sampler__clip_duration py_str DataKeys_METADATA self sample =
       Ok (VDict
             (dict_set
                (let d := [("video", frames);
                           ("video_name", video_name video);
                           ("video_index", VInt 0);
                           ("clip_index", clip_index info);
                           ("aug_index", aug_index info)] in
                 if is_None audio_samples then d
                 else dict_set d "audio" audio_samples)
                DataKeys_METADATA (VDict [("filepath", sample)])))).
Proof.
  intros Hda Hdec Hsam Hvideo Hinfo Hclip.
  pose proof (clip_is_null_spec self clip decode_audio Hda) as Hnull.
  split.
  - intros clip_duration Hn Hcd.
    unfold predict_load_sample_body, getattr_value.
    rewrite Hda, Hdec. cbn [bind]. rewrite Hvideo. cbn [bind].
    rewrite Hsam. cbn [bind]. rewrite Hinfo. cbn [bind].
    rewrite Hclip. cbn [bind]. rewrite Hnull, Hn. cbn [bind].
    rewrite Hcd. reflexivity.
  - intros frames audio_samples -> Hn.
    unfold predict_load_sample_body, getattr_value.
    rewrite Hda, Hdec. cbn [bind]. rewrite Hvideo. cbn [bind].
    rewrite Hsam. cbn [bind]. rewrite Hinfo. cbn [bind].
    rewrite Hclip. cbn [bind]. rewrite Hnull, Hn. reflexivity.
Qed.

End PredictLoadSample.

Lemma predict_load_sample_too_short_witness :
  Fixture.body Fixture.predict_instance (VStr "a.mp4") =
    Raise (MisconfigurationException
             "The provided video is too short 1 to be clipped at 2") /\
  Fixture.body Fixture.predict_instance (VStr "long.mp4") =
    Ok (VDict [("video", Fixture.frames); ("video_name", VStr "long.mp4");
               ("video_index", VInt 0); ("clip_index", VInt 0);
               ("aug_index", VInt 0);
               ("metadata", VDict [("filepath", VStr "long.mp4")])]).
Proof.
  assert (Hda : attrs Fixture.predict_instance !! "_decode_audio" = Some (VBool false))
    by (vm_compute; reflexivity).
  assert (Hdec : attrs Fixture.predict_instance !! "_decoder" = Some (VStr "pyav"))
    by (vm_compute; reflexivity).
  assert (Hsam : attrs Fixture.predict_instance !! "_clip_sampler" = Some (VObject 7))
    by (vm_compute; reflexivity).
  split.
  - destruct (predict_load_sample_too_short
                Fixture.EncodedVideo_from_path Fixture.call_clip_sampler
                Fixture.sampler__clip_duration Fixture.py_str "metadata"
                Fixture.predict_instance (VStr "a.mp4") (VBool false) (VStr "pyav")
                (VObject 7)
                {| video_duration := VInt 1; video_name := VStr "a.mp4";
                   video_get_clip := fun _ _ => Ok VNone |}
                {| clip_start := VInt 0; clip_end := VInt 2; clip_index := VInt 0;
                   aug_index := VInt 0; is_last_clip := VBool true |}
                None Hda Hdec Hsam eq_refl eq_refl eq_refl) as [Hnull _].
    exact (Hnull (VInt 2) eq_refl eq_refl).
  - destruct (predict_load_sample_too_short
                Fixture.EncodedVideo_from_path Fixture.call_clip_sampler
                Fixture.sampler__clip_duration Fixture.py_str "metadata"
                Fixture.predict_instance (VStr "long.mp4") (VBool false) (VStr "pyav")
                (VObject 7)
                {| video_duration := VInt 5; video_name := VStr "long.mp4";
                   video_get_clip := fun _ _ =>
                     Ok (VDict [("video", Fixture.frames); ("audio", VNone)]) |}
                {| clip_start := VInt 0; clip_end := VInt 2; clip_index := VInt 0;
                   aug_index := VInt 0; is_last_clip := VBool true |}
                (Some (Fixture.frames, VNone)) Hda Hdec Hsam eq_refl eq_refl eq_refl)
      as [_ Hclip].
    exact (Hclip Fixture.frames VNone eq_refl eq_refl).
Defined.

(** C6 as the specification words it fails: the error does not identify the
    offending input.  Two different files that are both too short raise the
    very same exception. *)
Lemma predict_error_does_not_identify_input_counterexample :
  ~ (forall (path1 path2 : string) (e : exn),
       Fixture.body Fixture.predict_instance (VStr path1) = Raise e ->
       Fixture.body Fixture.predict_instance (VStr path2) = Raise e ->
       path1 = path2).
Proof.
  intros H.
  assert (Ha : Fixture.body Fixture.predict_instance (VStr "a.mp4") =
               Raise (MisconfigurationException
                        "The provided video is too short 1 to be clipped at 2"))
    by (vm_compute; reflexivity).
  assert (Hb : Fixture.body Fixture.predict_instance (VStr "b.mp4") =
               Raise (MisconfigurationException
                        "The provided video is too short 1 to be clipped at 2"))
    by (vm_compute; reflexivity).
  specialize (H "a.mp4" "b.mp4" _ Ha Hb). discriminate H.
Qed.

(** ** The tabular backbones *)

Module PytorchTabularFacts.
Import PytorchTabular.

Section Library.

Variable DictConfig : Type.
Variable OptimizerConfig : Type.
Variable ModelConfig___init__ : ModelConfigClass -> value -> value -> result unit.
Variable OmegaConf_create : gmap string value -> result DictConfig.
Variable OptimizerConfig___init__ : result OptimizerConfig.
Variable OmegaConf_merge : DictConfig -> ModelConfig -> OptimizerConfig -> result DictConfig.
Variable TabNetModel___init__ : DictConfig -> result unit.

Local Abbreviation load_pytorch_tabular :=
  (load_pytorch_tabular DictConfig OptimizerConfig ModelConfig___init__
     OmegaConf_create OptimizerConfig___init__ OmegaConf_merge TabNetModel___init__).
Local Abbreviation PYTORCH_TABULAR_BACKBONES :=
  (PYTORCH_TABULAR_BACKBONES DictConfig OptimizerConfig ModelConfig___init__
     OmegaConf_create OptimizerConfig___init__ OmegaConf_merge TabNetModel___init__).

(** A model is returned only when every call into the library returned, and
    it is then a [TabNetModel] around the merged configuration. *)
Lemma load_pytorch_tabular_Ok
    model_config task_type (parameters : gmap string value) kw m :
  load_pytorch_tabular model_config task_type parameters kw = Ok m ->
  exists dims created optimizer_config config,
    parameters !! "embedding_dims" = Some dims /\
    ModelConfig___init__ model_config task_type dims = Ok tt /\
    OmegaConf_create parameters = Ok created /\
    OptimizerConfig___init__ = Ok optimizer_config /\
    OmegaConf_merge created
      {| config_class := model_config; task := task_type; embedding_dims := dims |}
      optimizer_config = Ok config /\
    TabNetModel___init__ config = Ok tt /\
    m = TabNetModel config.
Proof.
  unfold PytorchTabular.load_pytorch_tabular.
  destruct (parameters !! "embedding_dims") as [dims|]; [|discriminate].
  destruct (ModelConfig___init__ model_config task_type dims) as [[]|e] eqn:H1;
    [|discriminate].
  destruct (OmegaConf_create parameters) as [created|e] eqn:H2; [|discriminate].
  destruct OptimizerConfig___init__ as [optimizer_config|e] eqn:H3; [|discriminate].
  cbn [bind].
  destruct (OmegaConf_merge created _ optimizer_config) as [config|e] eqn:H4;
    [|discriminate].
  cbn [bind].
  destruct (TabNetModel___init__ config) as [[]|e] eqn:H5; [|discriminate].
  cbn [bind]. intros [= <-].
  exists dims, created, optimizer_config, config. repeat split; assumption.
Qed.

(** When every call into the library returns, so does the constructor. *)
Lemma load_pytorch_tabular_returns
    model_config task_type (parameters : gmap string value) kw
    dims created optimizer_config config :
  parameters !! "embedding_dims" = Some dims ->
  ModelConfig___init__ model_config task_type dims = Ok tt ->
  OmegaConf_create parameters = Ok created ->
  OptimizerConfig___init__ = Ok optimizer_config ->
  OmegaConf_merge created
    {| config_class := model_config; task := task_type; embedding_dims := dims |}
    optimizer_config = Ok config ->
  TabNetModel___init__ config = Ok tt ->
  load_pytorch_tabular model_config task_type parameters kw = Ok (TabNetModel config).
Proof.
  intros H0 H1 H2 H3 H4 H5. unfold PytorchTabular.load_pytorch_tabular.
  rewrite H0, H1. cbn [bind]. rewrite H2. cbn [bind]. rewrite H3. cbn [bind].
  rewrite H4. cbn [bind]. rewrite H5. reflexivity.
Qed.

Lemma registered_entries available name entry :
  get (PYTORCH_TABULAR_BACKBONES available) name = Some entry ->
  exists model_config,
    In (model_config, name) (zip backbone_config_classes backbone_names) /\
    fn entry = load_pytorch_tabular model_config.
Proof.
  intros H. destruct available; [|discriminate H].
  unfold PytorchTabular.PYTORCH_TABULAR_BACKBONES in H.
  cbn [fold_left zip zip_with backbone_config_classes backbone_names register app
       get entry_name] in H.
  repeat match type of H with
         | (if ?b then _ else _) = _ => destruct b eqn:?
         end;
    try discriminate H;
    injection H as <-;
    match goal with
    | E : String.eqb _ name = true |- _ => apply String.eqb_eq in E; subst name
    end;
    eexists; (split; [|reflexivity]); cbn; tauto.
Qed.

(** C10.  The registry holds, when [pytorch_tabular] is installed, exactly
    the six names tabnet, tabtransformer, fttransformer, autoint, node and
    category_embedding, and nothing otherwise.  The constructor
    registered under each of them is [load_pytorch_tabular] applied to the
    configuration class paired with the name.  Whatever the library does,
    a model this constructor returns is a [TabNetModel]: the configuration
    class was used to build the model configuration from the task and the
    [embedding_dims] entry, that configuration was merged with the
    parameters and the optimizer defaults, and [TabNetModel] was
    instantiated on the result.  When each of these library calls returns,
    the constructor returns that [TabNetModel]. *)
Theorem every_backbone_builds_TabNetModel
    (_PYTORCHTABULAR_AVAILABLE : bool) (name : string) (entry : Entry DictConfig) :
  get (PYTORCH_TABULAR_BACKBONES _PYTORCHTABULAR_AVAILABLE) name = Some entry ->
  map entry_name (PYTORCH_TABULAR_BACKBONES true) = backbone_names /\
  In name backbone_names /\
  exists model_config : ModelConfigClass,
    In (model_config, name) (zip backbone_config_classes backbone_names) /\
    (forall task_type (parameters : gmap string value) kw m,
       fn entry task_type parameters kw = Ok m ->
       is_TabNetModel m = true /\
       exists dims created optimizer_config config,
         parameters !! "embedding_dims" = Some dims /\
         ModelConfig___init__ model_config task_type dims = Ok tt /\
         OmegaConf_create parameters = Ok created /\
         OptimizerConfig___init__ = Ok optimizer_config /\
         OmegaConf_merge created
           {| config_class := model_config; task := task_type;
              embedding_dims := dims |}
           optimizer_config = Ok config /\
         TabNetModel___init__ config = Ok tt /\
         m = TabNetModel config) /\
    (forall task_type (parameters : gmap string value) kw
            dims created optimizer_config config,
       parameters !! "embedding_dims" = Some dims ->
       ModelConfig___init__ model_config task_type dims = Ok tt ->
       OmegaConf_create parameters = Ok created ->
       OptimizerConfig___init__ = Ok optimizer_config ->
       OmegaConf_merge created
         {| config_class := model_config; task := task_type;
            embedding_dims := dims |}
         optimizer_config = Ok config ->
       TabNetModel___init__ config = Ok tt ->
       fn entry task_type parameters kw = Ok (TabNetModel config)).
Proof.
  intros Hget.
  destruct (registered_entries _ name entry Hget) as (model_config & Hin & Hfn).
  split; [reflexivity|]. split.
  - cbn in Hin. cbn. intuition congruence.
  - exists model_config. split; [exact Hin|]. rewrite Hfn. split.
    + intros task_type parameters kw m Hm.
      destruct (load_pytorch_tabular_Ok _ _ _ _ _ Hm)
        as (dims & created & optimizer_config & config & H0 & H1 & H2 & H3 & H4 & H5 & ->).
      split; [reflexivity|].
      exists dims, created, optimizer_config, config. repeat split; assumption.
    + intros task_type parameters kw dims created optimizer_config config.
      apply load_pytorch_tabular_returns.
Qed.

(** X17.  Without an [embedding_dims] entry [load_pytorch_tabular] raises
    [KeyError] before it calls the library, whatever the library does; with
    one, an exception of the configuration class's constructor is passed on
    and no model is built; the extra keywords have no influence on the
    outcome. *)
Theorem load_pytorch_tabular_needs_embedding_dims
    (model_config : ModelConfigClass) (task_type : value)
    (parameters : gmap string value) (kw : kwargs) :
  (parameters !! "embedding_dims" = None ->
   load_pytorch_tabular model_config task_type parameters kw =
     Raise (KeyError (VStr "embedding_dims"))) /\
  (forall dims e,
     parameters !! "embedding_dims" = Some dims ->
     ModelConfig___init__ model_config task_type dims = Raise e ->
     load_pytorch_tabular model_config task_type parameters kw = Raise e) /\
  load_pytorch_tabular model_config task_type parameters kw =
    load_pytorch_tabular model_config task_type parameters [].
Proof.
  unfold PytorchTabular.load_pytorch_tabular. split; [|split].
  - intros ->. reflexivity.
  - intros dims e -> ->. reflexivity.
  - reflexivity.
Qed.

End Library.

Lemma every_backbone_builds_TabNetModel_witness :
  exists entry : Entry (gmap string value),
    get Fixture3.registry "node" = Some entry /\
    In "node" backbone_names /\
    fn entry (VStr "classification") (<["embedding_dims" := VList []]> ∅) [] =
      Ok (TabNetModel
            (<["task" := VStr "classification"]>
               (<["embedding_dims" := VList []]> ∅))).
Proof.
  assert (Hget : exists entry, get Fixture3.registry "node" = Some entry)
    by (eexists; reflexivity).
  destruct Hget as [entry Hget]. exists entry. split; [exact Hget|].
  destruct (every_backbone_builds_TabNetModel (gmap string value) unit
              Fixture3.ModelConfig___init__ Fixture3.OmegaConf_create
              Fixture3.OptimizerConfig___init__ Fixture3.OmegaConf_merge
              Fixture3.TabNetModel___init__ true "node" entry Hget)
    as (_ & Hin & model_config & Hzip & _ & Hreturns).
  split; [exact Hin|].
  apply (Hreturns (VStr "classification") (<["embedding_dims" := VList []]> ∅) []
           (VList []) (<["embedding_dims" := VList []]> ∅) tt).
  - reflexivity.
  - reflexivity.
  - reflexivity.
  - reflexivity.
  - reflexivity.
  - reflexivity.
Defined.

Lemma load_pytorch_tabular_needs_embedding_dims_witness :
  (∅ : gmap string value) !! "embedding_dims" = None /\
  load_pytorch_tabular (gmap string value) unit
    Fixture3.ModelConfig___init__ Fixture3.OmegaConf_create
    Fixture3.OptimizerConfig___init__ Fixture3.OmegaConf_merge
    Fixture3.TabNetModel___init__ NodeConfig (VStr "classification") ∅ [] =
    Raise (KeyError (VStr "embedding_dims")).
Proof.
  split; [reflexivity|].
  apply (load_pytorch_tabular_needs_embedding_dims (gmap string value) unit
           Fixture3.ModelConfig___init__ Fixture3.OmegaConf_create
           Fixture3.OptimizerConfig___init__ Fixture3.OmegaConf_merge
           Fixture3.TabNetModel___init__ NodeConfig (VStr "classification") ∅ []).
  reflexivity.
Defined.

(** Asking for the NODE backbone of a library that accepts the call: the
    configuration is built with [NodeConfig], the model is a
    [TabNetModel]. *)
Example node_backbone_is_TabNetModel :
  (fun e => fn e (VStr "classification") (<["embedding_dims" := VList []]> ∅) [])
    <$> get Fixture3.registry "node" =
  Some (Ok (TabNetModel
              (<["task" := VStr "classification"]>
                 (<["embedding_dims" := VList []]> ∅)))).
Proof. reflexivity. Qed.

End PytorchTabularFacts.

(** ** Further properties of [input_base.py] *)

(** A class that only inherits the hooks of [InputBase]. *)
Lemma plain_getattr (cls : pyclass) (stage : RunningStage) :
  cls = Input \/ cls = IterableInput ->
  getattr cls (_resolve_function_hierarchy "load_data" cls stage) =
    Some InputBase_load_data /\
  _resolve_function_hierarchy "load_data" cls stage = "load_data" /\
  getattr cls (_resolve_function_hierarchy "load_sample" cls stage) =
    Some InputBase_load_sample /\
  _resolve_function_hierarchy "load_sample" cls stage = "load_sample".
Proof.
  intros [-> | ->]; destruct stage; repeat split; vm_compute; reflexivity.
Qed.

Lemma plain__call_load_sample (cls : pyclass) (self : obj_state) (x : value) :
  cls = Input \/ cls = IterableInput ->
  _call_load_sample cls self x =
    (Ok x, log_call self (CallLoadSample "load_sample" x)).
Proof.
  intros Hcls. unfold _call_load_sample.
  destruct (plain_getattr cls (running_stage self) Hcls) as (_ & _ & -> & ->).
  destruct self. reflexivity.
Qed.

(** X1.  Without overrides a random-access dataset is its list: constructed on a
    list [l] (whatever the stage, the further arguments and the keywords) it
    has the length of [l], and [__getitem__(i)] is [l[i]], an error
    included. *)
Theorem plain_Input_is_its_list
    (stage : RunningStage) (l rest : list value) (kw : kwargs) (i : Z) :
  let self := snd (InputBase___init__ Input stage (VList l :: rest) kw) in
  fst (InputBase___init__ Input stage (VList l :: rest) kw) = Ok tt /\
  data self = VList l /\
  Input___len__ self = Ok (Z.of_nat (length l)) /\
  fst (Input___getitem__ Input self i) = list_getitem l i.
Proof.
  assert (Hinit : InputBase___init__ Input stage (VList l :: rest) kw =
            (Ok tt, ObjState stage (VList l) None ∅
                      [CallLoadData "load_data" (VList l :: rest) kw])).
  { unfold InputBase___init__, _call_load_data. cbn [is_None].
    destruct (plain_getattr Input stage (or_introl eq_refl)) as (Hg & Hn & _).
    cbn [running_stage _running_stage]. rewrite Hg, Hn. reflexivity. }
  rewrite Hinit. cbn [fst snd]. repeat split.
  unfold Input___getitem__. cbn [data py_getitem].
  destruct (list_getitem l i) as [x|e]; [|reflexivity].
  rewrite plain__call_load_sample by auto. reflexivity.
Qed.

Lemma plain_load_samples (raw : list value) : forall self,
  fst (load_samples IterableInput raw self) = map Ok raw.
Proof.
  induction raw as [|x raw IH]; intros self; simpl; [reflexivity|].
  rewrite plain__call_load_sample by auto.
  specialize (IH (log_call (advance self) (CallLoadSample "load_sample" x))).
  destruct (load_samples IterableInput raw _) as [rs self2]. simpl in *.
  rewrite IH. reflexivity.
Qed.

(** X2.  Without overrides a streaming dataset replays its list: after
    [__iter__], as many [__next__] calls as the list is long return its
    elements in order, and the one after them raises [StopIteration]. *)
Theorem plain_IterableInput_replays_its_list
    (stage : RunningStage) (l rest : list value) (kw : kwargs) (ref : loc) :
  let self := snd (InputBase___init__ IterableInput stage (VList l :: rest) kw) in
  let self0 := snd (IterableInput___iter__ ref self) in
  fst (IterableInput___iter__ ref self) = Ok ref /\
  fst (nexts IterableInput (length l) self0) = map Ok l /\
  fst (IterableInput___next__ IterableInput
         (snd (nexts IterableInput (length l) self0))) = Raise StopIteration.
Proof.
  assert (Hinit : InputBase___init__ IterableInput stage (VList l :: rest) kw =
            (Ok tt, ObjState stage (VList l) None ∅
                      [CallLoadData "load_data" (VList l :: rest) kw])).
  { unfold InputBase___init__, _call_load_data. cbn [is_None].
    destruct (plain_getattr IterableInput stage (or_intror eq_refl)) as (Hg & Hn & _).
    cbn [running_stage _running_stage]. rewrite Hg, Hn. reflexivity. }
  rewrite Hinit. cbn [fst snd].
  set (self := ObjState stage (VList l) None ∅
                 [CallLoadData "load_data" (VList l :: rest) kw]).
  rewrite (IterableInput___iter___list ref self l eq_refl). cbn [fst snd].
  split; [reflexivity|].
  destruct (fresh_pass IterableInput (set_data_iter self (Some (Iterator l 0))) l
              (set_data_iter_in_step self l _ eq_refl)) as (Hn & _ & Hstop).
  split.
  - rewrite Hn. apply plain_load_samples.
  - rewrite Hstop. reflexivity.
Qed.

(** X3.  [__next__] on an instance on which [__iter__] was never called raises
    [AttributeError]: the constructor does not create [data_iter].  No hook
    is called and the instance is unchanged. *)
Theorem next_before_iter_raises
    (cls : pyclass) (stage : RunningStage) (args : list value) (kw : kwargs) :
  let self := snd (InputBase___init__ cls stage args kw) in
  IterableInput___next__ cls self = (Raise (AttributeError "data_iter"), self).
Proof.
  intros self. unfold IterableInput___next__.
  destruct (InputBase___init___state cls stage args kw) as [_ Hit].
  fold self in Hit. rewrite Hit. reflexivity.
Qed.

(** X4.  The constructor hands the hook an instance with empty [data] and no
    attribute, and follows its outcome: what the hook returns becomes
    [data]; if the hook raises, the exception leaves the constructor and
    [data] is still the empty list.  Either way the attributes the hook
    stored are kept. *)
Theorem constructor_follows_load_data
    (cls : pyclass) (stage : RunningStage) (a0 : value) (rest : list value)
    (kw : kwargs) (load_data : function) :
  is_None a0 = false ->
  getattr cls (_resolve_function_hierarchy "load_data" cls stage) = Some load_data ->
  let name := _resolve_function_hierarchy "load_data" cls stage in
  let outcome := load_data (ObjState stage (VList []) None ∅ []) (a0 :: rest) kw in
  InputBase___init__ cls stage (a0 :: rest) kw =
    match fst outcome with
    | Ok d =>
        (Ok tt, ObjState stage d None (snd outcome)
                  [CallLoadData name (a0 :: rest) kw])
    | Raise e =>
        (Raise e, ObjState stage (VList []) None (snd outcome)
                    [CallLoadData name (a0 :: rest) kw])
    end.
Proof.
  intros Ha0 Hget name outcome.
  unfold InputBase___init__, _call_load_data, invoke. rewrite Ha0.
  cbn [running_stage _running_stage]. rewrite Hget.
  subst outcome. destruct (load_data _ (a0 :: rest) kw) as [[d|e] a]; reflexivity.
Qed.

Lemma constructor_follows_load_data_witness :
  InputBase___init__ Fixture.PredictInput PREDICTING [Fixture.paths] [] =
    (Ok tt,
     ObjState PREDICTING Fixture.paths None
       (<["_decoder" := VStr "pyav"]>
          (<["_decode_audio" := VBool false]>
             (<["_clip_sampler" := VObject 7]> ∅)))
       [CallLoadData "predict_load_data" [Fixture.paths] []]).
Proof.
  exact (constructor_follows_load_data Fixture.PredictInput PREDICTING
           Fixture.paths [] []
           (predict_load_data Fixture.list_valid_files Fixture.make_clip_sampler)
           eq_refl eq_refl).
Defined.

(** On a list the public operations leave [data] in place. *)
Lemma run_operations_list cls ops : forall self l,
  data self = VList l -> data (run_operations cls ops self) = VList l.
Proof.
  unfold run_operations.
  induction ops as [|op ops IH]; intros self l Hdata; simpl; [exact Hdata|].
  apply IH. destruct op; simpl.
  - exact Hdata.
  - destruct (Input___getitem___frame cls self index) as (_ & Hd & _).
    cbv zeta in Hd. rewrite Hd. exact Hdata.
  - rewrite (IterableInput___iter___list self_ref self l Hdata). exact Hdata.
  - apply IterableInput___next___list. exact Hdata.
Qed.

(** X5.  On a dataset whose raw collection is a list, which the hooks leave
    to the base classes, no public operation changes the number of
    descriptors: after any sequence of [__len__], [__getitem__], [__iter__]
    and [__next__], [__len__] answers the length of that list. *)
Theorem length_is_stable
    (cls : pyclass) (ops : list operation) (self : obj_state) (raw : list value) :
  data self = VList raw ->
  Input___len__ (run_operations cls ops self) = Ok (Z.of_nat (length raw)) /\
  Input___len__ (run_operations cls ops self) = Input___len__ self.
Proof.
  intros Hdata. unfold Input___len__.
  rewrite (run_operations_list cls ops self raw Hdata), Hdata. auto.
Qed.

Lemma length_is_stable_witness :
  data (Fixture3.instance PREDICTING) = VList [VStr "x"] /\
  Input___len__
    (run_operations Fixture3.Derived [OpGetItem 0; OpIter 0%nat; OpNext; OpNext; OpLen]
       (Fixture3.instance PREDICTING)) = Ok 1.
Proof.
  split; [reflexivity|].
  exact (proj1 (length_is_stable Fixture3.Derived
                  [OpGetItem 0; OpIter 0%nat; OpNext; OpNext; OpLen]
                  (Fixture3.instance PREDICTING) [VStr "x"] eq_refl)).
Defined.

Lemma _call_load_sample_calls cls self sample :
  extends_InputBase cls ->
  calls (snd (_call_load_sample cls self sample)) =
    (calls self ++
     [CallLoadSample (_resolve_function_hierarchy "load_sample" cls (running_stage self))
        sample])%list.
Proof.
  intros Hcls. unfold _call_load_sample.
  destruct (_resolve_function_hierarchy_defined cls (running_stage self) "load_sample"
              (getattr_load_sample cls Hcls)) as [f Hf].
  rewrite Hf. apply invoke_frame.
Qed.

Lemma load_samples_calls cls raw : forall self,
  extends_InputBase cls ->
  calls (snd (load_samples cls raw self)) =
    (calls self ++
     map (CallLoadSample
            (_resolve_function_hierarchy "load_sample" cls (running_stage self)))
         raw)%list.
Proof.
  induction raw as [|x raw IH]; intros self Hcls; simpl.
  - rewrite app_nil_r. reflexivity.
  - pose proof (_call_load_sample_calls cls (advance self) x Hcls) as Hc.
    destruct (_call_load_sample_frame cls (advance self) x) as (Hs & _ & _ & _).
    destruct (_call_load_sample cls (advance self) x) as [r self1].
    specialize (IH self1 Hcls).
    destruct (load_samples cls raw self1) as [rs self2]. simpl in *.
    destruct (advance_frame self) as (Has & Hac & _).
    unfold running_stage in *. rewrite IH, Hc, Hs, Has, Hac, <- app_assoc.
    reflexivity.
Qed.

(** X6.  A pass over a streaming dataset calls the resolved [load_sample] hook
    once per descriptor, in the order of the raw collection, and calls
    nothing else. *)
Theorem pass_calls_load_sample_once_per_descriptor
    (cls : pyclass) (self : obj_state) (raw : list value) (ref : loc) :
  extends_InputBase cls ->
  data self = VList raw ->
  let self0 := snd (IterableInput___iter__ ref self) in
  calls self0 = calls self /\
  calls (snd (nexts cls (length raw) self0)) =
    (calls self ++
     map (CallLoadSample
            (_resolve_function_hierarchy "load_sample" cls (running_stage self)))
         raw)%list.
Proof.
  intros Hcls Hdata.
  rewrite (IterableInput___iter___list ref self raw Hdata). cbn [snd].
  split; [reflexivity|].
  destruct (fresh_pass cls (set_data_iter self (Some (Iterator raw 0))) raw
              (set_data_iter_in_step self raw _ Hdata)) as (Hn & _ & _).
  rewrite Hn, (load_samples_calls cls raw _ Hcls). reflexivity.
Qed.

Lemma pass_calls_load_sample_once_per_descriptor_witness :
  extends_InputBase IterableInput /\
  calls (snd (nexts IterableInput 2
                (snd (IterableInput___iter__ 0%nat
                        (ObjState TESTING (VList [VStr "a"; VStr "b"]) None ∅ []))))) =
    [CallLoadSample "load_sample" (VStr "a"); CallLoadSample "load_sample" (VStr "b")].
Proof.
  assert (Hcls : extends_InputBase IterableInput) by (right; left; reflexivity).
  split; [exact Hcls|].
  exact (proj2 (pass_calls_load_sample_once_per_descriptor IterableInput
                  (ObjState TESTING (VList [VStr "a"; VStr "b"]) None ∅ [])
                  [VStr "a"; VStr "b"] 0%nat Hcls eq_refl)).
Defined.

(** X7.  A successful [__getitem__] calls the resolved [load_sample] hook exactly
    once, on the descriptor the index selects (counted from the end when the
    index is negative). *)
Theorem getitem_calls_load_sample_once
    (cls : pyclass) (self : obj_state) (raw : list value) (i : Z) (x : value) :
  extends_InputBase cls ->
  data self = VList raw ->
  list_getitem raw i = Ok x ->
  calls (snd (Input___getitem__ cls self i)) =
    (calls self ++
     [CallLoadSample
        (_resolve_function_hierarchy "load_sample" cls (running_stage self)) x])%list.
Proof.
  intros Hcls Hdata Hx. unfold Input___getitem__. rewrite Hdata.
  cbn [py_getitem]. rewrite Hx. apply _call_load_sample_calls. exact Hcls.
Qed.

Lemma getitem_calls_load_sample_once_witness :
  extends_InputBase Fixture.PredictInput /\
  calls (snd (Input___getitem__ Fixture.PredictInput Fixture.predict_instance (-1))) =
    [CallLoadData "predict_load_data" [Fixture.paths] [];
     CallLoadSample "predict_load_sample" (VStr "b.mp4")].
Proof.
  assert (Hcls : extends_InputBase Fixture.PredictInput)
    by (right; right; left; reflexivity).
  split; [exact Hcls|].
  exact (getitem_calls_load_sample_once Fixture.PredictInput Fixture.predict_instance
           [VStr "a.mp4"; VStr "b.mp4"] (-1) (VStr "b.mp4") Hcls eq_refl eq_refl).
Defined.

(** ** Further properties of [video/classification/input.py] *)

Lemma dict_get_set_eq d k v : dict_get (dict_set d k v) k = Some v.
Proof.
  induction d as [|[k' v'] d IH]; simpl.
  - rewrite String.eqb_refl. reflexivity.
  - destruct (String.eqb k' k) eqn:E; simpl; rewrite E; auto.
Qed.

Lemma dict_get_set_ne d k v k' :
  k <> k' -> dict_get (dict_set d k v) k' = dict_get d k'.
Proof.
  intros Hne. induction d as [|[k0 v0] d IH]; simpl.
  - apply String.eqb_neq in Hne. rewrite Hne. reflexivity.
  - destruct (String.eqb k0 k) eqn:E; simpl.
    + apply String.eqb_eq in E. subst k0.
      apply String.eqb_neq in Hne. rewrite Hne. reflexivity.
    + rewrite IH. reflexivity.
Qed.

Lemma dict_set_keys d k v x :
  dict_get d k = Some x -> map fst (dict_set d k v) = map fst d.
Proof.
  induction d as [|[k0 v0] d IH]; simpl; [discriminate|].
  destruct (String.eqb k0 k) eqn:E; simpl; [reflexivity|].
  intros H. rewrite IH by exact H. reflexivity.
Qed.

(** Binding looks at the keywords only under the names of the parameters. *)
Lemma bind_args_ext params : forall args kw kw',
  (forall p, In p (map fst params) -> dict_get kw p = dict_get kw' p) ->
  bind_args params args kw = bind_args params args kw'.
Proof.
  induction params as [|[p dflt] params IH]; intros args kw kw' H;
    destruct args as [|a args]; simpl; try reflexivity.
  - rewrite <- (H p) by (left; reflexivity).
    rewrite (IH [] kw kw') by (intros q Hq; apply H; right; exact Hq).
    reflexivity.
  - rewrite <- (H p) by (left; reflexivity).
    rewrite (IH args kw kw') by (intros q Hq; apply H; right; exact Hq).
    reflexivity.
Qed.

Section PredictLoadData.

Variable list_valid_files : value -> list string -> result value.
Variable make_clip_sampler : value -> value -> kwargs -> result value.

(** X8.  [predict_load_data] of the paths input sees its keywords only under its
    six parameter names: a keyword that names none of them ([transform],
    [video_sampler], ...; [self] apart, which a call cannot pass) is ignored,
    and the order of the keywords does not matter. *)
Theorem predict_load_data_ignores_other_keywords
    (self : obj_state) (args : list value) (kw kw' : kwargs) :
  dict_get kw "self" = None ->
  dict_get kw' "self" = None ->
  (forall p,
     In p ["paths"; "clip_sampler"; "clip_duration"; "clip_sampler_kwargs";
           "decode_audio"; "decoder"] ->
     dict_get kw p = dict_get kw' p) ->
  predict_load_data list_valid_files make_clip_sampler self args kw =
  predict_load_data list_valid_files make_clip_sampler self args kw'.
Proof.
  intros _ _ H. unfold predict_load_data.
  rewrite (bind_args_ext predict_load_data_params args kw kw' H). reflexivity.
Qed.

(** X9.  When [predict_load_data] raises, whether from the binding of its
    arguments, from [list_valid_files] or from the construction of the clip
    sampler, it has stored nothing on the instance. *)
Theorem predict_load_data_stores_nothing_on_error
    (self : obj_state) (args : list value) (kw : kwargs) (e : exn) :
  fst (predict_load_data list_valid_files make_clip_sampler self args kw) = Raise e ->
  snd (predict_load_data list_valid_files make_clip_sampler self args kw) = attrs self.
Proof.
  unfold predict_load_data.
  destruct (bind_args predict_load_data_params args kw) as [b|]; [|reflexivity].
  destruct (list_valid_files _ _) as [paths|]; [|reflexivity].
  destruct (_make_clip_sampler _ _ _ _) as [sampler|]; [|reflexivity].
  simpl. discriminate.
Qed.

(** X10.  When [predict_load_data] returns, it returns what [list_valid_files]
    kept of [paths] for the extensions mp4 and avi, and the instance holds
    the new clip sampler in [_clip_sampler] and the bound [decode_audio] and
    [decoder] in [_decode_audio] and [_decoder]; every other attribute is as
    it was. *)
Theorem predict_load_data_stores_its_settings
    (self : obj_state) (args : list value) (kw : kwargs)
    (paths : value) (a : gmap string value) :
  predict_load_data list_valid_files make_clip_sampler self args kw = (Ok paths, a) ->
  exists (b : list (string * value)) (sampler : value),
    bind_args predict_load_data_params args kw = Ok b /\
    list_valid_files (arg b "paths") ["mp4"; "avi"] = Ok paths /\
    _make_clip_sampler make_clip_sampler (arg b "clip_sampler")
      (arg b "clip_duration") (arg b "clip_sampler_kwargs") = Ok sampler /\
    a !! "_clip_sampler" = Some sampler /\
    a !! "_decode_audio" = Some (arg b "decode_audio") /\
    a !! "_decoder" = Some (arg b "decoder") /\
    forall name : string,
      name <> "_clip_sampler" -> name <> "_decode_audio" -> name <> "_decoder" ->
      a !! name = attrs self !! name.
Proof.
  unfold predict_load_data.
  destruct (bind_args predict_load_data_params args kw) as [b|]; [|discriminate].
  destruct (list_valid_files _ _) as [paths'|] eqn:Hp; [|discriminate].
  destruct (_make_clip_sampler _ _ _ _) as [sampler|] eqn:Hs; [|discriminate].
  intros [= <- <-]. exists b, sampler.
  split; [reflexivity|]. split; [exact Hp|]. split; [exact Hs|].
  split; [|split; [|split]].
  - rewrite !lookup_insert_ne by discriminate. apply lookup_insert_eq.
  - rewrite lookup_insert_ne by discriminate. apply lookup_insert_eq.
  - apply lookup_insert_eq.
  - intros name H1 H2 H3. rewrite !lookup_insert_ne by congruence. reflexivity.
Qed.

End PredictLoadData.

Lemma predict_load_data_ignores_other_keywords_witness :
  predict_load_data Fixture.list_valid_files Fixture.make_clip_sampler Fixture2.fresh
    [Fixture.paths] [("transform", VObject 9); ("decoder", VStr "decord")] =
  predict_load_data Fixture.list_valid_files Fixture.make_clip_sampler Fixture2.fresh
    [Fixture.paths] [("decoder", VStr "decord"); ("video_sampler", VObject 3)].
Proof.
  apply predict_load_data_ignores_other_keywords; [reflexivity|reflexivity|].
  intros p Hp. simpl in Hp.
  repeat (destruct Hp as [<- | Hp]; [reflexivity|]). destruct Hp.
Defined.

Lemma predict_load_data_stores_nothing_on_error_witness :
  fst (predict_load_data Fixture.list_valid_files Fixture.make_clip_sampler
         Fixture2.fresh [Fixture.paths; VStr "uniform"]
         [("clip_sampler", VStr "random")]) = Raise TypeError /\
  snd (predict_load_data Fixture.list_valid_files Fixture.make_clip_sampler
         Fixture2.fresh [Fixture.paths; VStr "uniform"]
         [("clip_sampler", VStr "random")]) = attrs Fixture2.fresh.
Proof.
  split; [reflexivity|].
  exact (predict_load_data_stores_nothing_on_error
           Fixture.list_valid_files Fixture.make_clip_sampler Fixture2.fresh
           [Fixture.paths; VStr "uniform"] [("clip_sampler", VStr "random")]
           TypeError eq_refl).
Defined.

Lemma predict_load_data_stores_its_settings_witness :
  exists (b : list (string * value)) (sampler : value),
    bind_args predict_load_data_params [Fixture.paths] [("decode_audio", VBool true)]
      = Ok b /\
    Fixture.list_valid_files (arg b "paths") ["mp4"; "avi"] = Ok Fixture.paths /\
    _make_clip_sampler Fixture.make_clip_sampler (arg b "clip_sampler")
      (arg b "clip_duration") (arg b "clip_sampler_kwargs") = Ok sampler /\
    snd (predict_load_data Fixture.list_valid_files Fixture.make_clip_sampler
           Fixture2.fresh [Fixture.paths] [("decode_audio", VBool true)])
      !! "_clip_sampler" = Some sampler /\
    snd (predict_load_data Fixture.list_valid_files Fixture.make_clip_sampler
           Fixture2.fresh [Fixture.paths] [("decode_audio", VBool true)])
      !! "_decode_audio" = Some (arg b "decode_audio") /\
    snd (predict_load_data Fixture.list_valid_files Fixture.make_clip_sampler
           Fixture2.fresh [Fixture.paths] [("decode_audio", VBool true)])
      !! "_decoder" = Some (arg b "decoder") /\
    forall name : string,
      name <> "_clip_sampler" -> name <> "_decode_audio" -> name <> "_decoder" ->
      snd (predict_load_data Fixture.list_valid_files Fixture.make_clip_sampler
             Fixture2.fresh [Fixture.paths] [("decode_audio", VBool true)])
        !! name = attrs Fixture2.fresh !! name.
Proof.
  exact (predict_load_data_stores_its_settings
           Fixture.list_valid_files Fixture.make_clip_sampler Fixture2.fresh
           [Fixture.paths] [("decode_audio", VBool true)] Fixture.paths _ eq_refl).
Defined.

Section PredictLoadSampleResult.

Variable EncodedVideo_from_path : value -> value -> value -> result EncodedVideo.
Variable call_clip_sampler : value -> value -> value -> value -> result ClipInfo.
Variable sampler__clip_duration : value -> result value.
Variable py_str : value -> string.
Variable DataKeys_METADATA : string.

(** What a returned sample is made of. *)
Lemma predict_load_sample_body_Ok (self : obj_state) (sample r : value) :
  predict_load_sample_body EncodedVideo_from_path call_clip_sampler
    sampler__clip_duration py_str DataKeys_METADATA self sample = Ok r ->
  exists (video : EncodedVideo) (info : ClipInfo) (loaded_clip frames audio : value),
    clip_is_null self loaded_clip = Ok false /\
    py_getitem_str loaded_clip "video" = Ok frames /\
    py_getitem_str loaded_clip "audio" = Ok audio /\
    r = VDict
          (dict_set
             (if is_None audio
              then [("video", frames); ("video_name", video_name video);
                    ("video_index", VInt 0); ("clip_index", clip_index info);
                    ("aug_index", aug_index info)]
              else dict_set
                     [("video", frames); ("video_name", video_name video);
                      ("video_index", VInt 0); ("clip_index", clip_index info);
                      ("aug_index", aug_index info)]
                     "audio" audio)
             DataKeys_METADATA (VDict [("filepath", sample)])).
Proof.
  unfold predict_load_sample_body. intros H.
  repeat match type of H with
         | bind ?x _ = _ => destruct x eqn:?; cbn [bind] in H; [|discriminate H]
         end.
  match type of H with
  | (if ?b then _ else _) = _ => destruct b
  end.
  - repeat match type of H with
           | bind ?x _ = _ => destruct x eqn:?; cbn [bind] in H; [|discriminate H]
           end.
    discriminate H.
  - repeat match type of H with
           | bind ?x _ = _ => destruct x eqn:?; cbn [bind] in H; [|discriminate H]
           end.
    injection H as <-. eauto 10.
Qed.

(** X11.  Every sample [predict_load_sample] returns carries the path it was loaded
    from: [sample[DataKeys.METADATA]["filepath"]] is the argument. *)
Theorem predict_sample_records_its_path (self : obj_state) (sample r : value) :
  predict_load_sample_body EncodedVideo_from_path call_clip_sampler
    sampler__clip_duration py_str DataKeys_METADATA self sample = Ok r ->
  (metadata <- py_getitem_str r DataKeys_METADATA ;;
   py_getitem_str metadata "filepath") = Ok sample.
Proof.
  intros H.
  destruct (predict_load_sample_body_Ok self sample r H)
    as (video & info & clip & frames & audio & _ & _ & _ & ->).
  cbn [py_getitem_str]. rewrite dict_get_set_eq. reflexivity.
Qed.

(** X12.  In a returned sample the video is never [None], and there is an
    ["audio"] entry only for audio samples that are not [None] (the metadata
    key being neither ["video"] nor ["audio"]). *)
Theorem predict_sample_has_video_and_no_null_audio
    (self : obj_state) (sample r : value) :
  DataKeys_METADATA <> "video" ->
  DataKeys_METADATA <> "audio" ->
  predict_load_sample_body EncodedVideo_from_path call_clip_sampler
    sampler__clip_duration py_str DataKeys_METADATA self sample = Ok r ->
  exists d : list (string * value),
    r = VDict d /\
    (exists frames, dict_get d "video" = Some frames /\ is_None frames = false) /\
    (forall audio, dict_get d "audio" = Some audio -> is_None audio = false).
Proof.
  intros Hv Ha H.
  destruct (predict_load_sample_body_Ok self sample r H)
    as (video & info & clip & frames & audio & Hnull & Hf & Hau & ->).
  assert (Hframes : is_None frames = false).
  { unfold clip_is_null in Hnull.
    destruct (is_None clip); [discriminate Hnull|].
    rewrite Hf in Hnull. cbn [bind] in Hnull.
    destruct (is_None frames); [discriminate Hnull|reflexivity]. }
  eexists. split; [reflexivity|]. split.
  - exists frames. split; [|exact Hframes].
    rewrite dict_get_set_ne by exact Hv. destruct (is_None audio); reflexivity.
  - intros audio'. rewrite dict_get_set_ne by exact Ha.
    destruct (is_None audio) eqn:E; simpl; [discriminate|].
    intros [= <-]. exact E.
Qed.

End PredictLoadSampleResult.

Lemma predict_sample_records_its_path_witness :
  (metadata <- py_getitem_str
                 (VDict [("video", Fixture.frames); ("video_name", VStr "long.mp4");
                         ("video_index", VInt 0); ("clip_index", VInt 0);
                         ("aug_index", VInt 0);
                         ("metadata", VDict [("filepath", VStr "long.mp4")])])
                 "metadata" ;;
   py_getitem_str metadata "filepath") = Ok (VStr "long.mp4").
Proof.
  assert (H : Fixture.body Fixture.predict_instance (VStr "long.mp4") =
              Ok (VDict [("video", Fixture.frames); ("video_name", VStr "long.mp4");
                         ("video_index", VInt 0); ("clip_index", VInt 0);
                         ("aug_index", VInt 0);
                         ("metadata", VDict [("filepath", VStr "long.mp4")])]))
    by (vm_compute; reflexivity).
  exact (predict_sample_records_its_path
           Fixture.EncodedVideo_from_path Fixture.call_clip_sampler
           Fixture.sampler__clip_duration Fixture.py_str "metadata"
           Fixture.predict_instance (VStr "long.mp4") _ H).
Defined.

Lemma predict_sample_has_video_and_no_null_audio_witness :
  exists d : list (string * value),
    VDict [("video", Fixture.frames); ("video_name", VStr "long.mp4");
           ("video_index", VInt 0); ("clip_index", VInt 0);
           ("aug_index", VInt 0);
           ("metadata", VDict [("filepath", VStr "long.mp4")])] = VDict d /\
    (exists frames, dict_get d "video" = Some frames /\ is_None frames = false) /\
    (forall audio, dict_get d "audio" = Some audio -> is_None audio = false).
Proof.
  assert (H : Fixture.body Fixture.predict_instance (VStr "long.mp4") =
              Ok (VDict [("video", Fixture.frames); ("video_name", VStr "long.mp4");
                         ("video_index", VInt 0); ("clip_index", VInt 0);
                         ("aug_index", VInt 0);
                         ("metadata", VDict [("filepath", VStr "long.mp4")])]))
    by (vm_compute; reflexivity).
  assert (Hv : "metadata" <> "video") by discriminate.
  assert (Ha : "metadata" <> "audio") by discriminate.
  exact (predict_sample_has_video_and_no_null_audio
           Fixture.EncodedVideo_from_path Fixture.call_clip_sampler
           Fixture.sampler__clip_duration Fixture.py_str "metadata"
           Fixture.predict_instance (VStr "long.mp4") _ Hv Ha H).
Defined.

(** X13.  [VideoClassificationInput.load_sample] on a dictionary: without a
    ["label"] entry it raises [KeyError]; an error of [format_target] is
    passed on; otherwise the sample returned has the formatted target under
    ["label"], every other entry as it was, and the same keys in the same
    order. *)
Theorem load_sample_formats_only_the_label
    (format_target : obj_state -> value -> result value)
    (self : obj_state) (d : list (string * value)) :
  (dict_get d "label" = None ->
   VideoClassificationInput.load_sample_body format_target self (VDict d) =
     Raise (KeyError (VStr "label"))) /\
  (forall label e,
     dict_get d "label" = Some label ->
     format_target self label = Raise e ->
     VideoClassificationInput.load_sample_body format_target self (VDict d) =
       Raise e) /\
  (forall label target,
     dict_get d "label" = Some label ->
     format_target self label = Ok target ->
     exists d' : list (string * value),
       VideoClassificationInput.load_sample_body format_target self (VDict d) =
         Ok (VDict d') /\
       dict_get d' "label" = Some target /\
       (forall k, k <> "label" -> dict_get d' k = dict_get d k) /\
       map fst d' = map fst d).
Proof.
  unfold VideoClassificationInput.load_sample_body. cbn [py_getitem_str].
  split; [|split].
  - intros ->. reflexivity.
  - intros label e -> Hf. cbn [bind]. rewrite Hf. reflexivity.
  - intros label target Hl Hf. rewrite Hl. cbn [bind]. rewrite Hf. cbn [bind].
    exists (dict_set d "label" target). split; [reflexivity|].
    split; [apply dict_get_set_eq|]. split.
    + intros k Hk. apply dict_get_set_ne. congruence.
    + apply (dict_set_keys d "label" target label Hl).
Qed.

Lemma load_sample_formats_only_the_label_witness :
  VideoClassificationInput.load_sample_body Fixture2.format_target Fixture2.fresh
    (VDict [("video", VObject 1); ("label", VStr "dog"); ("video_index", VInt 4)]) =
    Ok (VDict [("video", VObject 1); ("label", VInt 1); ("video_index", VInt 4)]) /\
  VideoClassificationInput.load_sample_body Fixture2.format_target Fixture2.fresh
    (VDict [("video", VObject 1)]) = Raise (KeyError (VStr "label")).
Proof.
  destruct (load_sample_formats_only_the_label Fixture2.format_target Fixture2.fresh
              [("video", VObject 1)]) as (Hmissing & _ & _).
  split; [reflexivity|]. exact (Hmissing eq_refl).
Defined.

(** ** The data frame and CSV predict inputs *)

Lemma bind_args_strict_unknown params args kw k v :
  In (k, v) kw ->
  ~ In k (map fst params) ->
  bind_args_strict params args kw = Raise TypeError.
Proof.
  intros Hin Hk. unfold bind_args_strict.
  destruct (forallb _ kw) eqn:E; [|reflexivity].
  rewrite forallb_forall in E. specialize (E (k, v) Hin).
  apply existsb_exists in E. destruct E as (p & Hp & Heq).
  apply String.eqb_eq in Heq. simpl in Heq. subst p. contradiction.
Qed.

Section PredictFrames.

Variable list_valid_files : value -> list string -> result value.
Variable make_clip_sampler : value -> value -> kwargs -> result value.
Variable resolve_files : value -> value -> value -> value -> result value.
Variable RandomSampler : value.
Variable read_csv : value -> result value.
Variable os_path_dirname : value -> result value.

(** X14.  The data frame predict input is the paths predict input on the files
    [resolve_files] finds in the frame: same result, same attributes stored.
    The [video_sampler] it accepts plays no part. *)
Theorem data_frame_predict_is_paths_predict_on_resolved_files
    (self : obj_state) (args : list value) (kw : kwargs)
    (b : list (string * value)) (files : value) :
  bind_args_strict
    (VideoClassificationDataFramePredictInput.predict_load_data_params RandomSampler)
    args kw = Ok b ->
  resolve_files (arg b "data_frame") (arg b "input_key") (arg b "root")
    (arg b "resolver") = Ok files ->
  VideoClassificationDataFramePredictInput.predict_load_data
    list_valid_files make_clip_sampler resolve_files RandomSampler self args kw =
  predict_load_data list_valid_files make_clip_sampler self
    [files; arg b "clip_sampler"; arg b "clip_duration";
     arg b "clip_sampler_kwargs"; arg b "decode_audio"; arg b "decoder"] [].
Proof.
  intros Hb Hfiles.
  unfold VideoClassificationDataFramePredictInput.predict_load_data.
  rewrite Hb, Hfiles. reflexivity.
Qed.

(** X15.  The CSV predict input reads the frame from the CSV file and resolves the
    files against [root], or against the directory of the CSV file when
    [root] is [None]; from there on it is the paths predict input on the
    resolved files. *)
Theorem csv_predict_is_paths_predict_on_resolved_files
    (self : obj_state) (args : list value) (kw : kwargs)
    (b : list (string * value)) (data_frame root files : value) :
  bind_args_strict
    (VideoClassificationCSVPredictInput.predict_load_data_params RandomSampler)
    args kw = Ok b ->
  read_csv (arg b "csv_file") = Ok data_frame ->
  (if is_None (arg b "root") then os_path_dirname (arg b "csv_file")
   else Ok (arg b "root")) = Ok root ->
  resolve_files data_frame (arg b "input_key") root (arg b "resolver") = Ok files ->
  VideoClassificationCSVPredictInput.predict_load_data
    list_valid_files make_clip_sampler resolve_files RandomSampler
    read_csv os_path_dirname self args kw =
  predict_load_data list_valid_files make_clip_sampler self
    [files; arg b "clip_sampler"; arg b "clip_duration";
     arg b "clip_sampler_kwargs"; arg b "decode_audio"; arg b "decoder"] [].
Proof.
  intros Hb Hcsv Hroot Hfiles.
  unfold VideoClassificationCSVPredictInput.predict_load_data.
  rewrite Hb, Hcsv, Hroot.
  revert Hfiles.
  generalize (arg b "input_key") (arg b "resolver") (arg b "clip_sampler")
             (arg b "clip_duration") (arg b "clip_sampler_kwargs")
             (arg b "video_sampler") (arg b "decode_audio") (arg b "decoder").
  intros input_key resolver clip_sampler clip_duration clip_sampler_kwargs
         video_sampler decode_audio decoder Hfiles.
  unfold VideoClassificationDataFramePredictInput.predict_load_data.
  change (bind_args_strict
            (VideoClassificationDataFramePredictInput.predict_load_data_params
               RandomSampler)
            [data_frame; input_key; root; resolver]
            [("clip_sampler", clip_sampler); ("clip_duration", clip_duration);
             ("clip_sampler_kwargs", clip_sampler_kwargs);
             ("video_sampler", video_sampler); ("decode_audio", decode_audio);
             ("decoder", decoder)])
    with (Ok [("data_frame", data_frame); ("input_key", input_key);
              ("root", root); ("resolver", resolver);
              ("clip_sampler", clip_sampler); ("clip_duration", clip_duration);
              ("clip_sampler_kwargs", clip_sampler_kwargs);
              ("video_sampler", video_sampler); ("decode_audio", decode_audio);
              ("decoder", decoder)]).
  cbv beta iota.
  change (arg _ "data_frame") with data_frame.
  change (arg _ "input_key") with input_key.
  change (arg _ "root") with root.
  change (arg _ "resolver") with resolver.
  rewrite Hfiles. reflexivity.
Qed.

(** X16.  Unlike the paths predict input, the data frame and CSV predict inputs
    have no [**kwargs]: a keyword that names none of their parameters makes
    them raise [TypeError] before anything is read or stored. *)
Theorem frame_predict_inputs_reject_unknown_keywords
    (self : obj_state) (args : list value) (kw : kwargs) (k : string) (v : value) :
  In (k, v) kw ->
  ~ In k ["input_key"; "root"; "resolver"; "clip_sampler"; "clip_duration";
          "clip_sampler_kwargs"; "video_sampler"; "decode_audio"; "decoder"] ->
  (k <> "data_frame" ->
   VideoClassificationDataFramePredictInput.predict_load_data
     list_valid_files make_clip_sampler resolve_files RandomSampler self args kw =
     (Raise TypeError, attrs self)) /\
  (k <> "csv_file" ->
   VideoClassificationCSVPredictInput.predict_load_data
     list_valid_files make_clip_sampler resolve_files RandomSampler
     read_csv os_path_dirname self args kw =
     (Raise TypeError, attrs self)).
Proof.
  intros Hin Hk. split; intros Hk0.
  - unfold VideoClassificationDataFramePredictInput.predict_load_data.
    rewrite (bind_args_strict_unknown _ args kw k v Hin); [reflexivity|].
    intros [H|H]; [simpl in H; congruence|exact (Hk H)].
  - unfold VideoClassificationCSVPredictInput.predict_load_data.
    rewrite (bind_args_strict_unknown _ args kw k v Hin); [reflexivity|].
    intros [H|H]; [simpl in H; congruence|exact (Hk H)].
Qed.

End PredictFrames.

Lemma data_frame_predict_is_paths_predict_on_resolved_files_witness :
  VideoClassificationDataFramePredictInput.predict_load_data
    Fixture.list_valid_files Fixture.make_clip_sampler Fixture2.resolve_files
    Fixture2.RandomSampler Fixture2.fresh
    [Fixture.paths; VStr "file"] [("video_sampler", VObject 5)] =
  predict_load_data Fixture.list_valid_files Fixture.make_clip_sampler Fixture2.fresh
    [Fixture.paths; VStr "random"; VInt 2; VNone; VBool false; VStr "pyav"] [].
Proof.
  exact (data_frame_predict_is_paths_predict_on_resolved_files
           Fixture.list_valid_files Fixture.make_clip_sampler Fixture2.resolve_files
           Fixture2.RandomSampler Fixture2.fresh
           [Fixture.paths; VStr "file"] [("video_sampler", VObject 5)]
           _ Fixture.paths eq_refl eq_refl).
Defined.

Lemma csv_predict_is_paths_predict_on_resolved_files_witness :
  VideoClassificationCSVPredictInput.predict_load_data
    Fixture.list_valid_files Fixture.make_clip_sampler Fixture2.resolve_files
    Fixture2.RandomSampler Fixture2.read_csv Fixture2.os_path_dirname Fixture2.fresh
    [VStr "videos/predict.csv"; VStr "file"] [("decode_audio", VBool true)] =
  predict_load_data Fixture.list_valid_files Fixture.make_clip_sampler Fixture2.fresh
    [Fixture.paths; VStr "random"; VInt 2; VNone; VBool true; VStr "pyav"] [].
Proof.
  exact (csv_predict_is_paths_predict_on_resolved_files
           Fixture.list_valid_files Fixture.make_clip_sampler Fixture2.resolve_files
           Fixture2.RandomSampler Fixture2.read_csv Fixture2.os_path_dirname
           Fixture2.fresh
           [VStr "videos/predict.csv"; VStr "file"] [("decode_audio", VBool true)]
           _ Fixture.paths (VStr "videos") Fixture.paths
           eq_refl eq_refl eq_refl eq_refl).
Defined.

Lemma frame_predict_inputs_reject_unknown_keywords_witness :
  VideoClassificationDataFramePredictInput.predict_load_data
    Fixture.list_valid_files Fixture.make_clip_sampler Fixture2.resolve_files
    Fixture2.RandomSampler Fixture2.fresh
    [Fixture.paths; VStr "file"] [("transform", VObject 9)] =
    (Raise TypeError, attrs Fixture2.fresh).
Proof.
  assert (Hin : In ("transform", VObject 9) [("transform", VObject 9)])
    by (left; reflexivity).
  assert (Hk : ~ In "transform"
                 ["input_key"; "root"; "resolver"; "clip_sampler"; "clip_duration";
                  "clip_sampler_kwargs"; "video_sampler"; "decode_audio"; "decoder"]).
  { simpl. intros H. repeat (destruct H as [H|H]; [discriminate H|]). exact H. }
  assert (Hk0 : "transform" <> "data_frame") by discriminate.
  exact (proj1 (frame_predict_inputs_reject_unknown_keywords
                  Fixture.list_valid_files Fixture.make_clip_sampler
                  Fixture2.resolve_files Fixture2.RandomSampler
                  Fixture2.read_csv Fixture2.os_path_dirname Fixture2.fresh
                  [Fixture.paths; VStr "file"] [("transform", VObject 9)]
                  "transform" (VObject 9) Hin Hk) Hk0).
Defined.

(** ** Further properties of the tabular code *)

Section TabularModelSteps.

Variable backbone : value -> result value.
Variable Task_training_step : value -> value -> result value.
Variable Task_validation_step : value -> value -> result value.
Variable Task_test_step : value -> value -> result value.
Variable DataKeys_INPUT : string.
Variable DataKeys_TARGET : string.

(** X18.  [predict_step] gives the backbone the first two components of
    [batch[DataKeys.INPUT]] as ["categorical"] and ["continuous"] and returns
    its ["logits"]; further components, the other keys of the batch and the
    two indices are not looked at.  With fewer than two components it
    raises [IndexError] whatever the backbone. *)
Theorem predict_step_feeds_backbone
    (d : list (string * value)) (x_in : list value)
    (batch_idx dataloader_idx : value) :
  dict_get d DataKeys_INPUT = Some (VList x_in) ->
  (forall categorical continuous rest,
     x_in = categorical :: continuous :: rest ->
     TabularModel.predict_step backbone DataKeys_INPUT (VDict d)
       batch_idx dataloader_idx =
       (out <- backbone (VDict [("categorical", categorical);
                                ("continuous", continuous)]) ;;
        py_getitem_str out "logits")) /\
  ((length x_in < 2)%nat ->
   TabularModel.predict_step backbone DataKeys_INPUT (VDict d)
     batch_idx dataloader_idx = Raise IndexError).
Proof.
  intros Hin. unfold TabularModel.predict_step, TabularModel.forward.
  cbn [py_getitem_str]. rewrite Hin. cbn [bind py_getitem]. split.
  - intros categorical continuous rest ->.
    destruct (list_getitem_in_range (categorical :: continuous :: rest) 0)
      as (x0 & Hx0 & ->); [simpl; lia|].
    destruct (list_getitem_in_range (categorical :: continuous :: rest) 1)
      as (x1 & Hx1 & ->); [simpl; lia|].
    simpl in Hx0, Hx1. injection Hx0 as <-. injection Hx1 as <-. reflexivity.
  - intros Hlen. destruct x_in as [|c [|n rest]]; [| |simpl in Hlen; lia].
    + reflexivity.
    + rewrite (list_getitem_out_of_range [c] 1) by (simpl; lia). reflexivity.
Qed.

(** X19.  The training, validation and test steps hand the parent step the pair
    of [batch[DataKeys.INPUT]] and [batch[DataKeys.TARGET]] and nothing else
    of the batch; a batch without one of the two keys raises [KeyError]
    and the parent step is not reached. *)
Theorem steps_pass_input_and_target
    (d : list (string * value)) (batch_idx : value) :
  (forall input target,
     dict_get d DataKeys_INPUT = Some input ->
     dict_get d DataKeys_TARGET = Some target ->
     TabularModel.training_step Task_training_step DataKeys_INPUT DataKeys_TARGET
       (VDict d) batch_idx = Task_training_step (VList [input; target]) batch_idx /\
     TabularModel.validation_step Task_validation_step DataKeys_INPUT DataKeys_TARGET
       (VDict d) batch_idx = Task_validation_step (VList [input; target]) batch_idx /\
     TabularModel.test_step Task_test_step DataKeys_INPUT DataKeys_TARGET
       (VDict d) batch_idx = Task_test_step (VList [input; target]) batch_idx) /\
  (forall missing,
     (missing = DataKeys_INPUT \/
      (missing = DataKeys_TARGET /\ is_Some (dict_get d DataKeys_INPUT))) ->
     dict_get d missing = None ->
     TabularModel.training_step Task_training_step DataKeys_INPUT DataKeys_TARGET
       (VDict d) batch_idx = Raise (KeyError (VStr missing)) /\
     TabularModel.validation_step Task_validation_step DataKeys_INPUT DataKeys_TARGET
       (VDict d) batch_idx = Raise (KeyError (VStr missing)) /\
     TabularModel.test_step Task_test_step DataKeys_INPUT DataKeys_TARGET
       (VDict d) batch_idx = Raise (KeyError (VStr missing))).
Proof.
  unfold TabularModel.training_step, TabularModel.validation_step,
    TabularModel.test_step.
  cbn [py_getitem_str]. split.
  - intros input target -> ->. auto.
  - intros missing [-> | [-> [input Hinput]]] Hmissing.
    + rewrite Hmissing. auto.
    + rewrite Hinput, Hmissing. auto.
Qed.

End TabularModelSteps.

Lemma predict_step_feeds_backbone_witness :
  TabularModel.predict_step Fixture2.backbone "input"
    (VDict [("input", VList [VInt 1; VInt 2; VInt 3]); ("metadata", VNone)])
    (VInt 0) (VInt 0) = Ok (VInt 2) /\
  TabularModel.predict_step Fixture2.backbone "input"
    (VDict [("input", VList [VInt 1])]) (VInt 0) (VInt 0) = Raise IndexError.
Proof.
  split.
  - exact (proj1 (predict_step_feeds_backbone Fixture2.backbone "input"
                    [("input", VList [VInt 1; VInt 2; VInt 3]); ("metadata", VNone)]
                    [VInt 1; VInt 2; VInt 3] (VInt 0) (VInt 0) eq_refl)
                 (VInt 1) (VInt 2) [VInt 3] eq_refl).
  - apply (proj2 (predict_step_feeds_backbone Fixture2.backbone "input"
                    [("input", VList [VInt 1])] [VInt 1] (VInt 0) (VInt 0) eq_refl)).
    simpl. lia.
Defined.

Lemma steps_pass_input_and_target_witness :
  TabularModel.training_step Fixture2.Task_step "input" "target"
    (VDict [("input", VInt 1); ("target", VInt 0); ("metadata", VNone)]) (VInt 7) =
    Ok (VList [VInt 1; VInt 0]) /\
  TabularModel.training_step Fixture2.Task_step "input" "target"
    (VDict [("input", VInt 1)]) (VInt 7) = Raise (KeyError (VStr "target")).
Proof.
  split.
  - exact (proj1 (proj1 (steps_pass_input_and_target
                           Fixture2.Task_step Fixture2.Task_step Fixture2.Task_step
                           "input" "target"
                           [("input", VInt 1); ("target", VInt 0); ("metadata", VNone)]
                           (VInt 7))
                        (VInt 1) (VInt 0) eq_refl eq_refl)).
  - refine (proj1 (proj2 (steps_pass_input_and_target
                            Fixture2.Task_step Fixture2.Task_step Fixture2.Task_step
                            "input" "target" [("input", VInt 1)] (VInt 7))
                         "target" _ eq_refl)).
    right. split; [reflexivity|]. exists (VInt 1). reflexivity.
Defined.
